(** * AliExpress catalog scraper: a shallow embedding of src/api/hello.ts

    The source file holds two variants of the same crawler:
    - [handler], a serverless request handler that scrapes one result page;
    - the class [AliExpressScraper], whose [scrapeProducts] paginates.

    Modelling conventions.
    - A JavaScript string is represented by the bytes of its UTF-8 encoding
      (a Rocq [string]); only well-formed strings are considered.
    - A number an option holds is an integer-valued double, written as the
      integer it is ([Z]); every integer up to 2^53 in absolute value is
      one.  Fractional option values are outside the model.  A number the
      program computes is a [JsNum]: [NaN], an integer-valued double, or an
      infinity; [parseInt] rounds to the nearest double as the engine does.
    - [null]/[undefined] option fields are [None]; so is a request body
      that is [null] or [undefined].
    - A thrown value is an [Error] object, known by its message, or some
      other value.
    - The browser is an abstract, possibly failing environment; the program
      is written in a state-and-exception monad over it and every call it
      makes to the environment is recorded in an event log. *)

From Stdlib Require Import String Ascii List ZArith Lia Bool DecimalString.
From Stdlib Require DecimalPos.
Import ListNotations.
Open Scope string_scope.
Open Scope Z_scope.

(* ===================================================================== *)
(** ** JavaScript strings *)
(* ===================================================================== *)

Module JsString.

Definition code (c : ascii) : Z := Z.of_N (N_of_ascii c).

Definition chars (s : string) : list ascii := list_ascii_of_string s.
Definition of_chars (l : list ascii) : string := string_of_list_ascii l.

(** [\d] of a regular expression without the unicode flag: [0-9]. *)
Definition is_digit (c : ascii) : bool :=
  (48 <=? code c) && (code c <=? 57).

Definition digit_value (c : ascii) : Z := code c - 48.

(** [s.replace(/\D/g, '')]: every character that is not a digit is removed. *)
Definition replace_non_digits (s : string) : string :=
  of_chars (filter is_digit (chars s)).

(** ECMAScript WhiteSpace and LineTerminator code points, as UTF-8 byte
    sequences of length one, two and three. *)
Definition ws1 (a : ascii) : bool :=
  let x := code a in
  ((9 <=? x) && (x <=? 13)) || (x =? 32).

(* U+00A0 *)
Definition ws2 (a b : ascii) : bool :=
  (code a =? 194) && (code b =? 160).

(* U+1680, U+2000..U+200A, U+2028, U+2029, U+202F, U+205F, U+3000, U+FEFF *)
Definition ws3 (a b c : ascii) : bool :=
  let x := code a in let y := code b in let z := code c in
  ((x =? 225) && (y =? 154) && (z =? 128))
  || ((x =? 226) && (y =? 128)
      && (((128 <=? z) && (z <=? 138)) || (z =? 168) || (z =? 169) || (z =? 175)))
  || ((x =? 226) && (y =? 129) && (z =? 159))
  || ((x =? 227) && (y =? 128) && (z =? 128))
  || ((x =? 239) && (y =? 187) && (z =? 191)).

(** Removal of leading white space.  [fwd] tells in which direction the
    bytes of a multi-byte character are met: [true] on the string itself,
    [false] on its reversal (used for the trailing white space). *)
Fixpoint drop_ws (fwd : bool) (l : list ascii) : list ascii :=
  match l with
  | a :: r1 =>
      if ws1 a then drop_ws fwd r1
      else
        match r1 with
        | b :: r2 =>
            if (if fwd then ws2 a b else ws2 b a) then drop_ws fwd r2
            else
              match r2 with
              | c :: r3 =>
                  if (if fwd then ws3 a b c else ws3 c b a) then drop_ws fwd r3
                  else l
              | [] => l
              end
        | [] => l
        end
  | [] => l
  end.

Definition trimStart (s : string) : string := of_chars (drop_ws true (chars s)).
Definition trimEnd (s : string) : string :=
  of_chars (rev (drop_ws false (rev (chars s)))).

(** [s.trim()] *)
Definition trim (s : string) : string := trimEnd (trimStart s).

(** Value of a sequence of decimal digits, most significant first. *)
Definition digits_value (l : list ascii) : Z :=
  fold_left (fun acc c => acc * 10 + digit_value c) l 0.

(** Longest prefix made of digits. *)
Fixpoint digit_prefix (l : list ascii) : list ascii :=
  match l with
  | c :: r => if is_digit c then c :: digit_prefix r else []
  | [] => []
  end.

(** The numbers the program computes: [NaN], an integer-valued double
    (the two zeros are not told apart), plus or minus infinity. *)
Inductive JsNum :=
| NaN
| Num (n : Z)
| Inf (negative : bool).

Definition negate (x : JsNum) : JsNum :=
  match x with
  | NaN => NaN
  | Num n => Num (- n)
  | Inf b => Inf (negb b)
  end.

(** The double nearest to a non-negative integer, ties to the even
    significand: below 2^53 the integer itself; otherwise the integer is
    cut to its 53 leading bits [q], rounded on the bits dropped [r], and
    is infinite when the result reaches 2^1024. *)
Definition nearest_double (n : Z) : JsNum :=
  if n <? 2 ^ 53 then Num n
  else
    let e := Z.log2 n - 52 in
    let q := n / 2 ^ e in
    let r := n mod 2 ^ e in
    let half := 2 ^ (e - 1) in
    let q' := if (half <? r) || ((r =? half) && Z.odd q) then q + 1 else q in
    if 1024 <=? Z.log2 (q' * 2 ^ e) then Inf false else Num (q' * 2 ^ e).

(** The double nearest to an integer. *)
Definition to_double (n : Z) : JsNum :=
  if n <? 0 then negate (nearest_double (- n)) else nearest_double n.

(** [parseInt(s, 10)]: leading white space is skipped, an optional sign is
    read, then the longest run of decimal digits, whose value is rounded to
    the nearest double; no digit gives [NaN].  (The language lets an engine
    replace the digits after the 20th by zeros before rounding; V8, which
    runs both variants, rounds the exact value.) *)
Definition parseInt10 (s : string) : JsNum :=
  let l := drop_ws true (chars s) in
  let '(negative, l') :=
    match l with
    | "-"%char :: r => (true, r)
    | "+"%char :: r => (false, r)
    | _ => (false, l)
    end in
  match digit_prefix l' with
  | [] => NaN
  | ds =>
      let v := nearest_double (digits_value ds) in
      if negative then negate v else v
  end.

(** [x || d] on numbers: [NaN] and [0] are falsy. *)
Definition num_or (x : JsNum) (d : Z) : JsNum :=
  match x with
  | NaN => Num d
  | Num n => if n =? 0 then Num d else Num n
  | Inf b => Inf b
  end.

(** [x || d] where [x] is a string or [null]: [null] and [''] are falsy. *)
Definition str_or (x : option string) (d : string) : string :=
  match x with
  | Some "" => d
  | Some s => s
  | None => d
  end.

(** The decimal writing of an integer. *)
Definition decimal (n : Z) : string :=
  NilZero.string_of_int (Z.to_int n).

(** The integer with the fewest significant digits that the double [x]
    (positive, integer-valued) is the nearest double of: digits are kept
    one more at a time, [unit] being the weight of the last digit kept;
    of the two candidates around [x] the valid one closest to [x] is
    taken, the even one on a tie. *)
Fixpoint shortest_digits (fuel : nat) (x unit : Z) : Z :=
  match fuel with
  | O => x
  | S fuel' =>
      let lo := (x / unit) * unit in
      let hi := lo + unit in
      let ok v := match nearest_double v with
                  | Num y => y =? x
                  | _ => false
                  end in
      if ok lo && ok hi then
        if (x - lo <? hi - x) || ((x - lo =? hi - x) && Z.even (x / unit))
        then lo else hi
      else if ok lo then lo
      else if ok hi then hi
      else shortest_digits fuel' x (unit / 10)
  end.

Fixpoint strip_zeros (rev_digits : list ascii) : list ascii :=
  match rev_digits with
  | "0"%char :: r => strip_zeros r
  | _ => rev_digits
  end.

(** The string conversion of a positive integer-valued double above 2^53:
    its shortest digits, followed by zeros up to 21 digits, in exponent
    notation beyond. *)
Definition large_toString (x : Z) : string :=
  let nd := Z.of_nat (String.length (decimal x)) in
  let v := shortest_digits (Z.to_nat nd) x (10 ^ (nd - 1)) in
  let dec := decimal v in
  let n := Z.of_nat (String.length dec) in
  if n <=? 21 then dec
  else
    match rev (strip_zeros (rev (chars dec))) with
    | [] => dec
    | [d] => of_chars [d] ++ "e+" ++ decimal (n - 1)
    | d :: ds => of_chars [d] ++ "." ++ of_chars ds ++ "e+" ++ decimal (n - 1)
    end.

(** [n.toString()] / the string conversion of the number written [n]: up
    to 2^53 the decimal writing of [n]; beyond, the conversion of the
    double nearest to [n]. *)
Definition number_toString (n : Z) : string :=
  if Z.abs n <=? 2 ^ 53 then decimal n
  else
    match nearest_double (Z.abs n) with
    | Num x => (if n <? 0 then "-" else "") ++ large_toString x
    | Inf _ => if n <? 0 then "-Infinity" else "Infinity"
    | NaN => "NaN"
    end.

End JsString.
Import JsString.

(* ===================================================================== *)
(** ** Options, DOM elements and product records *)
(* ===================================================================== *)

(** [this.options] of the class: the fields the crawl reads
    ([shippingCountry] is never read and [outputFile] only names the file
    the report is written to).  [None] is [null]. *)
Record Options := mkOptions {
  headless : bool;
  searchTerm : string;
  minPrice : option Z;
  maxPrice : option Z;
  minOrderCount : option Z;
  maxPages : Z
}.

(** [this.defaultOptions] *)
Definition defaultOptions : Options :=
  {| headless := true; searchTerm := ""; minPrice := None; maxPrice := None;
     minOrderCount := None; maxPages := 3 |}.

(** Truthiness of an optional number: [null], and [0], are falsy. *)
Definition truthy (x : option Z) : bool :=
  match x with
  | Some n => negb (n =? 0)
  | None => false
  end.

(** What the page-context callback reads from one [.product-item] element:
    the [data-product-id] attribute and, for each child selector, the
    [innerText] of the first match ([None] when [querySelector] is [null]);
    for the anchor, its [href]. *)
Record Element := mkElement {
  data_product_id : option string;
  product_title : option string;
  price_el : option string;
  orders_count : option string;
  rating_el : option string;
  anchor_href : option string
}.

(** The object literal built for each element (lines 64-72 and 192-200). *)
Record ProductRecord := mkProduct {
  id : string;
  title : string;
  price : string;
  orderCount : string;
  rating : string;
  link : string;
  scraped_at : string
}.

(** [el ? el.innerText.trim() : dflt] *)
Definition text_or (el : option string) (dflt : string) : string :=
  match el with
  | Some t => trim t
  | None => dflt
  end.

(** The record literal; [now] is [new Date().toISOString()] at that moment. *)
Definition product_of (el : Element) (now : string) : ProductRecord :=
  {| id := str_or (data_product_id el) "N/A";
     title := text_or (product_title el) "N/A";
     price := text_or (price_el el) "N/A";
     orderCount := text_or (orders_count el) "0";
     rating := text_or (rating_el el) "N/A";
     link := match anchor_href el with Some h => h | None => "N/A" end;
     scraped_at := now |}.

(** [parseInt(text.replace(/\D/g, ''), 10) || 0] *)
Definition count_of_text (text : string) : JsNum :=
  num_or (parseInt10 (replace_non_digits text)) 0.

(* ===================================================================== *)
(** ** Filter Engine *)
(* ===================================================================== *)

(** [n >= m] and [n < m] where [m] may be [null], which converts to [0];
    both are false of [NaN]. *)
Definition num_ge (n : JsNum) (m : option Z) : bool :=
  let k := match m with Some k => k | None => 0 end in
  match n with
  | NaN => false
  | Num a => k <=? a
  | Inf negative => negb negative
  end.

Definition num_lt (n : JsNum) (m : option Z) : bool :=
  let k := match m with Some k => k | None => 0 end in
  match n with
  | NaN => false
  | Num a => a <? k
  | Inf negative => negative
  end.

(** The class's filter callback (lines 201-204):
    [const orderCount = parseInt(product.orderCount.replace(/\D/g,''),10) || 0;
     return options.minOrderCount ? orderCount >= options.minOrderCount : true;] *)
Definition passes (options : Options) (product : ProductRecord) : bool :=
  let orderCount := count_of_text (orderCount product) in
  if truthy (minOrderCount options)
  then num_ge orderCount (minOrderCount options)
  else true.

(** The callback given to [page.evaluate] by [scrapeProducts]
    (lines 184-205).  The argument is the result of
    [document.querySelectorAll('.product-item')] in document order, each
    element paired with the clock reading taken when it is mapped. *)
Definition pageProducts (options : Options) (els : list (Element * string))
  : list ProductRecord :=
  filter (passes options) (map (fun '(el, now) => product_of el now) els).

(** The handler's map callback (lines 49-73); [None] is the [null] it
    returns for a filtered-out element. *)
Definition handler_orderCount (el : Element) : JsNum :=
  match orders_count el with
  | Some t => count_of_text t
  | None => Num 0
  end.

Definition handler_item (minOrderCount : option Z) (el : Element) (now : string)
  : option ProductRecord :=
  let orderCount := handler_orderCount el in
  if truthy minOrderCount && num_lt orderCount minOrderCount
  then None
  else Some (product_of el now).

(** [.filter(product => product !== null)] *)
Fixpoint non_null {A : Type} (l : list (option A)) : list A :=
  match l with
  | Some a :: r => a :: non_null r
  | None :: r => non_null r
  | [] => []
  end.

(** The callback given to [page.evaluate] by the handler (lines 47-74);
    its [options] argument is [{ minOrderCount }]. *)
Definition handler_products (minOrderCount : option Z)
  (els : list (Element * string)) : list ProductRecord :=
  non_null (map (fun '(el, now) => handler_item minOrderCount el now) els).

(* ===================================================================== *)
(** ** Query Builder *)
(* ===================================================================== *)

Module Url.

Local Open Scope list_scope.

Definition hex_digit (n : Z) : ascii :=
  match n with
  | 0 => "0" | 1 => "1" | 2 => "2" | 3 => "3" | 4 => "4" | 5 => "5"
  | 6 => "6" | 7 => "7" | 8 => "8" | 9 => "9" | 10 => "A" | 11 => "B"
  | 12 => "C" | 13 => "D" | 14 => "E" | _ => "F"
  end%char.

(** [%XX] for one byte. *)
Definition percent (c : ascii) : list ascii :=
  ["%"%char; hex_digit (code c / 16); hex_digit (code c mod 16)].

Definition is_alnum (c : ascii) : bool :=
  let x := code c in
  ((48 <=? x) && (x <=? 57)) || ((65 <=? x) && (x <=? 90))
  || ((97 <=? x) && (x <=? 122)).

(** Characters [encodeURIComponent] leaves alone: [A-Za-z0-9-_.!~*'()]. *)
Definition uri_unreserved (c : ascii) : bool :=
  is_alnum c
  || existsb (fun x => code c =? x) [45; 95; 46; 33; 126; 42; 39; 40; 41].

Definition encodeURIComponent (s : string) : string :=
  of_chars (flat_map (fun c => if uri_unreserved c then [c] else percent c) (chars s)).

(** The application/x-www-form-urlencoded byte serializer used by
    [URLSearchParams.prototype.toString]: a space becomes [+], the bytes
    [*-._0-9A-Za-z] are kept, every other byte is percent-encoded. *)
Definition form_safe (c : ascii) : bool :=
  is_alnum c || existsb (fun x => code c =? x) [42; 45; 46; 95].

Definition form_encode_byte (c : ascii) : list ascii :=
  if code c =? 32 then ["+"%char]
  else if form_safe c then [c]
  else percent c.

Definition form_encode (s : string) : list ascii :=
  flat_map form_encode_byte (chars s).

(** The entries of a [URLSearchParams] object, in insertion order. *)
Definition URLSearchParams := list (string * string).

Definition append (params : URLSearchParams) (name value : string)
  : URLSearchParams :=
  params ++ [(name, value)].

Definition serialize_pair (p : string * string) : list ascii :=
  form_encode (fst p) ++ "="%char :: form_encode (snd p).

Fixpoint serialize (params : URLSearchParams) : list ascii :=
  match params with
  | [] => []
  | [p] => serialize_pair p
  | p :: rest => serialize_pair p ++ "&"%char :: serialize rest
  end.

(** [params.toString()] *)
Definition toString (params : URLSearchParams) : string :=
  of_chars (serialize params).

(** The reader side, used to state what a built URL carries: the
    application/x-www-form-urlencoded parser. *)
Definition hex_value (c : ascii) : option Z :=
  let x := code c in
  if (48 <=? x) && (x <=? 57) then Some (x - 48)
  else if (65 <=? x) && (x <=? 70) then Some (x - 55)
  else if (97 <=? x) && (x <=? 102) then Some (x - 87)
  else None.

Definition byte_of (n : Z) : ascii := ascii_of_N (Z.to_N n).

Fixpoint form_decode (l : list ascii) : list ascii :=
  match l with
  | [] => []
  | c :: r =>
      if code c =? 43 then " "%char :: form_decode r
      else if code c =? 37 then
        match r with
        | h :: ((lo :: r2) as r1) =>
            match hex_value h, hex_value lo with
            | Some a, Some b => byte_of (16 * a + b) :: form_decode r2
            | _, _ => c :: h :: form_decode r1
            end
        | _ => c :: form_decode r
        end
      else c :: form_decode r
  end.

(** Bytes other than [&], other than [=]. *)
Definition no_amp (c : ascii) : bool := negb (code c =? 38).
Definition no_eq (c : ascii) : bool := negb (code c =? 61).

(** [l] cut at every occurrence of [sep]. *)
Fixpoint split_on (sep : ascii) (l : list ascii) : list (list ascii) :=
  match l with
  | [] => [[]]
  | c :: r =>
      if (code c =? code sep) then [] :: split_on sep r
      else match split_on sep r with
           | seg :: segs => (c :: seg) :: segs
           | [] => [[c]]
           end
  end.

(** A segment cut at its first [=]. *)
Fixpoint cut_eq (l : list ascii) : list ascii * list ascii :=
  match l with
  | [] => ([], [])
  | c :: r =>
      if code c =? 61 then ([], r)
      else let '(n, v) := cut_eq r in (c :: n, v)
  end.

Definition parse_pair (seg : list ascii) : string * string :=
  let '(n, v) := cut_eq seg in
  (of_chars (form_decode n), of_chars (form_decode v)).

(** Empty segments are skipped, as the parser does. *)
Definition parse_query (q : list ascii) : URLSearchParams :=
  map parse_pair (filter (fun seg => negb (length seg =? 0)%nat) (split_on "&" q)).

(** The part of a URL after its first [?]. *)
Fixpoint query_of (l : list ascii) : list ascii :=
  match l with
  | [] => []
  | c :: r => if code c =? 63 then r else query_of r
  end.

(** The query parameters a URL carries, decoded once. *)
Definition url_params (url : string) : URLSearchParams :=
  parse_query (query_of (chars url)).

Fixpoint get (params : URLSearchParams) (name : string) : option string :=
  match params with
  | [] => None
  | (n, v) :: rest => if String.eqb n name then Some v else get rest name
  end.

Definition has (params : URLSearchParams) (name : string) : bool :=
  existsb (fun p => String.eqb (fst p) name) params.

End Url.

Definition baseURL : string := "https://www.aliexpress.com/wholesale".

(** String conversion of an option value handed to [params.append]. *)
Definition opt_toString (x : option Z) : string :=
  match x with
  | Some n => number_toString n
  | None => "null"
  end.

(** The parameters assembled by [buildSearchURL] (lines 155-164) and,
    from its own variables, by the handler (lines 32-36). *)
Definition searchParams (searchTerm : string) (minPrice maxPrice : option Z)
  : Url.URLSearchParams :=
  let params := Url.append [] "SearchText" (Url.encodeURIComponent searchTerm) in
  let params :=
    if truthy minPrice
    then Url.append params "minPrice" (opt_toString minPrice)
    else params in
  let params :=
    if truthy maxPrice
    then Url.append params "maxPrice" (opt_toString maxPrice)
    else params in
  params.

(** [`${baseURL}?${params.toString()}`] *)
Definition searchURL_of (searchTerm : string) (minPrice maxPrice : option Z)
  : string :=
  baseURL ++ "?" ++ Url.toString (searchParams searchTerm minPrice maxPrice).

(** The method of the class. *)
Definition buildSearchURL (options : Options) : string :=
  searchURL_of (searchTerm options) (minPrice options) (maxPrice options).

(* ===================================================================== *)
(** ** The browser environment and the monad of the program *)
(* ===================================================================== *)

(** A thrown value: an instance of [Error], with its [message], or any
    other value.  A string used as an error is the [Error] object with
    that message. *)
Inductive Error :=
| ErrorObject (message : string)
| Thrown (value : string).
Coercion ErrorObject : string >-> Error.

Inductive Outcome (A : Type) : Type :=
| Ok (a : A)
| Throw (e : Error).
Arguments Ok {A} a.
Arguments Throw {A} e.

Inductive LaunchConfig :=
| ChromiumConfig (executablePath : string)          (* handler, lines 21-26 *)
| ScraperConfig (headless : bool) (args : list string). (* class, lines 123-135 *)

(** The calls whose result the program does not look at. *)
Inductive Command :=
| Launch (cfg : LaunchConfig)
| NewPage
| SetUserAgent (ua : string)
| SetRequestInterception (on : bool)
| OnRequest
| Goto (url : string) (waitUntil : string) (timeout : Z)
| WaitForSelector (selector : string) (timeout : Z)
| Click
| WaitForTimeout (ms : Z).

(** The browser engine, the site behind it and the clock.  Every call may
    succeed or throw, and moves the environment to a new state.
    [close_browser] is [browser.close()], whose contract has no failure
    mode. *)
Record Env := mkEnv {
  world : Type;
  run_command : Command -> world -> Outcome unit * world;
  executablePath : world -> Outcome string * world;
  evaluate_items : world -> Outcome (list (Element * string)) * world;
  query_selector : string -> world -> Outcome bool * world;
  close_browser : world -> world;
  now : world -> string
}.

(** What the program did, in order.  [EPage] is a ghost event: it marks
    the start of an iteration of the pagination loop with the value of
    [pageNum]. *)
Inductive Event :=
| ECommand (c : Command) (r : Outcome unit)
| EExecutablePath (r : Outcome string)
| EEvaluate (r : Outcome (list (Element * string)))
| EQuery (selector : string) (r : Outcome bool)
| EClose
| EConsoleError (e : Error)
| EPage (pageNum : Z).

Section Program.

Context {E : Env}.

(** The state the program runs in: the environment, the log, and the
    array [products] of [scrapeProducts] (line 173), which is declared
    outside the [try] and so survives an exception. *)
Record State := mkState {
  env : world E;
  log : list Event;
  products : list ProductRecord
}.

Definition M (A : Type) : Type := State -> Outcome A * State.

Definition ret {A} (a : A) : M A := fun s => (Ok a, s).

(** [throw e] *)
Definition throw {A} (e : Error) : M A := fun s => (Throw e, s).

Definition bind {A B} (m : M A) (k : A -> M B) : M B :=
  fun s =>
    match m s with
    | (Ok a, s') => k a s'
    | (Throw e, s') => (Throw e, s')
    end.

(** [try { body } catch (error) { handler }] *)
Definition catch {A} (body : M A) (handler : Error -> M A) : M A :=
  fun s =>
    match body s with
    | (Ok a, s') => (Ok a, s')
    | (Throw e, s') => handler e s'
    end.

(** [try { body } finally { final }]: [final] runs on both exits of
    [body]; if it throws, its error replaces the outcome of [body]. *)
Definition finally {A} (body : M A) (final : M unit) : M A :=
  fun s =>
    let '(r, s1) := body s in
    match final s1 with
    | (Ok _, s2) => (r, s2)
    | (Throw e, s2) => (Throw e, s2)
    end.

Definition emit (ev : Event) (s : State) : State :=
  {| env := env s; log := (log s ++ [ev])%list; products := products s |}.

Definition with_env (w : world E) (s : State) : State :=
  {| env := w; log := log s; products := products s |}.

Definition command (c : Command) : M unit :=
  fun s =>
    let '(r, w) := run_command E c (env s) in
    (r, emit (ECommand c r) (with_env w s)).

Definition chromium_executablePath : M string :=
  fun s =>
    let '(r, w) := executablePath E (env s) in
    (r, emit (EExecutablePath r) (with_env w s)).

(** [page.evaluate(callback, ...)]: the environment supplies the matched
    elements (or throws), the callback runs on them. *)
Definition evaluate (callback : list (Element * string) -> list ProductRecord)
  : M (list ProductRecord) :=
  fun s =>
    let '(r, w) := evaluate_items E (env s) in
    let s' := emit (EEvaluate r) (with_env w s) in
    match r with
    | Ok els => (Ok (callback els), s')
    | Throw e => (Throw e, s')
    end.

(** [page.$(selector)]: [true] when an element handle is returned. *)
Definition query (selector : string) : M bool :=
  fun s =>
    let '(r, w) := query_selector E selector (env s) in
    (r, emit (EQuery selector r) (with_env w s)).

Definition browser_close : M unit :=
  fun s => (Ok tt, emit EClose (with_env (close_browser E (env s)) s)).

Definition console_error (e : Error) : M unit :=
  fun s => (Ok tt, emit (EConsoleError e) s).

Definition mark (ev : Event) : M unit :=
  fun s => (Ok tt, emit ev s).

Definition date_now : M string :=
  fun s => (Ok (now E (env s)), s).

(** [products.push(...pageProducts)] *)
Definition push (pageProducts : list ProductRecord) : M unit :=
  fun s => (Ok tt, {| env := env s; log := log s;
                      products := (products s ++ pageProducts)%list |}).

Definition read_products : M (list ProductRecord) :=
  fun s => (Ok (products s), s).

End Program.

Arguments State E : clear implicits.
Arguments M E A : clear implicits.

Declare Scope prog_scope.
Delimit Scope prog_scope with prog.
Notation "x <- m ;; k" := (bind m (fun x => k))
  (at level 61, m at next level, right associativity) : prog_scope.
Notation "m ;; k" := (bind m (fun _ => k))
  (at level 61, right associativity) : prog_scope.
Open Scope prog_scope.

(* ===================================================================== *)
(** ** The class AliExpressScraper *)
(* ===================================================================== *)

Definition userAgent : string :=
  "Mozilla/5.0 (Windows NT 10.0; Win64; x64) AppleWebKit/537.36 (KHTML, like Gecko) Chrome/91.0.4472.124 Safari/537.36".

Definition launchArgs : list string :=
  ["--no-sandbox"; "--disable-setuid-sandbox"; "--disable-dev-shm-usage";
   "--disable-accelerated-2d-canvas"; "--no-first-run"; "--no-zygote";
   "--single-process"; "--disable-gpu"].

Definition blockedResources : list string := ["image"; "stylesheet"; "font"].

(** The request listener of [initialize]: [true] when the request is
    aborted, [false] when it continues. *)
Definition request_aborted (resourceType : string) : bool :=
  existsb (String.eqb resourceType) blockedResources.

(** How the pagination loop was left.  [LoopCond]: the test
    [pageNum <= maxPages] was false; [LoopBreak]: the [break] of line 214,
    with the value of [pageNum] and whether a next-page button was found;
    [LoopFuel]: the model ran out of fuel. *)
Inductive LoopExit :=
| LoopCond (pageNum : Z)
| LoopBreak (pageNum : Z) (nextPageButton : bool)
| LoopFuel.

Section Scraper.

Context {E : Env}.

(** [initialize()] (lines 122-151) *)
Definition initialize (options : Options) : M E unit :=
  command (Launch (ScraperConfig (headless options) launchArgs)) ;;
  command NewPage ;;
  command (SetUserAgent userAgent) ;;
  command (SetRequestInterception true) ;;
  command OnRequest.

(** The [for] loop of [scrapeProducts] (lines 183-216), entered with
    [pageNum]. *)
Fixpoint pagination (options : Options) (fuel : nat) (pageNum : Z)
  : M E LoopExit :=
  match fuel with
  | O => ret LoopFuel
  | S fuel' =>
      if pageNum <=? maxPages options then
        mark (EPage pageNum) ;;
        pageProducts <- evaluate (pageProducts options) ;;
        push pageProducts ;;
        nextPageButton <- query ".next-page" ;;
        if nextPageButton && (pageNum <? maxPages options) then
          command Click ;;
          command (WaitForTimeout 2000) ;;
          pagination options fuel' (pageNum + 1)
        else
          ret (LoopBreak pageNum nextPageButton)
      else
        ret (LoopCond pageNum)
  end.

(** Fuel that the loop never exhausts (see [pagination_trace]). *)
Definition loop_fuel (options : Options) : nat :=
  S (Z.to_nat (maxPages options)).

(** The body of the [try] block (lines 176-216). *)
Definition crawl (options : Options) (searchURL : string) : M E LoopExit :=
  command (Goto searchURL "networkidle0" 60000) ;;
  command (WaitForSelector ".product-item" 10000) ;;
  pagination options (loop_fuel options) 1.

(** [const products = [];] *)
Definition new_products : M E unit :=
  fun s => (Ok tt, {| env := env s; log := log s; products := [] |}).

(** [scrapeProducts()] (lines 169-224) *)
Definition scrapeProducts (options : Options) : M E (list ProductRecord) :=
  initialize options ;;
  let searchURL := buildSearchURL options in
  new_products ;;
  finally
    (catch (crawl options searchURL ;; ret tt)
           (fun error => console_error error))
    browser_close ;;
  read_products.

End Scraper.

(* ===================================================================== *)
(** ** The request handler *)
(* ===================================================================== *)

(** The five properties read from [req.body]: [None] is a missing key
    ([undefined]); for the numeric thresholds [Some None] is an explicit
    [null]. *)
Record RequestBody := mkBody {
  body_searchTerm : option string;
  body_minPrice : option (option Z);
  body_maxPrice : option (option Z);
  body_minOrderCount : option (option Z);
  body_maxPages : option Z
}.

(** [req]: its method and its body.  A body of [None] is [undefined] or
    [null], which cannot be destructured; any other body is [Some] of the
    five properties read from it. *)
Record Request := mkRequest {
  method : string;
  body : option RequestBody
}.

Record Metadata := mkMetadata {
  search_term : string;
  min_price : option Z;
  max_price : option Z;
  min_order_count : option Z;
  total_products : Z;
  report_scraped_at : string
}.

Inductive ResponseBody :=
| ErrorBody (error : string) (details : option string)
| ResultBody (metadata : Metadata) (items : list ProductRecord).

Record Response := mkResponse {
  status : Z;
  json : ResponseBody
}.

(** The [TypeError] of destructuring [undefined] or [null] (the message
    is V8's). *)
Definition destructure_error : Error :=
  ErrorObject
    "Cannot destructure property 'searchTerm' of 'req.body' as it is undefined.".

(** [error instanceof Error ? error.message : 'Unknown error'] (line 98) *)
Definition details_of (error : Error) : string :=
  match error with
  | ErrorObject message => message
  | Thrown _ => "Unknown error"
  end.

(** A destructuring default: it applies to [undefined] only. *)
Definition dflt {A : Type} (x : option A) (d : A) : A :=
  match x with
  | Some a => a
  | None => d
  end.

Section Handler.

Context {E : Env}.

(** [handler(req, res)] (lines 5-101); the result is the response sent.
    The destructuring of [req.body] (lines 12-18) stands before the [try]:
    on a body that is [undefined] or [null] it throws, no response is
    sent and the promise the handler returns is rejected. *)
Definition handler (req : Request) : M E Response :=
  if negb (String.eqb (method req) "POST") then
    ret {| status := 405; json := ErrorBody "Method Not Allowed" None |}
  else
  match body req with
  | None => throw destructure_error
  | Some fields =>
    let searchTerm := dflt (body_searchTerm fields) "smartphone" in
    let minPrice := dflt (body_minPrice fields) (Some 100) in
    let maxPrice := dflt (body_maxPrice fields) (Some 500) in
    let minOrderCount := dflt (body_minOrderCount fields) (Some 50) in
    let maxPages := dflt (body_maxPages fields) 3 in
    catch
      (path <- chromium_executablePath ;;
       command (Launch (ChromiumConfig path)) ;;
       command NewPage ;;
       let searchURL := searchURL_of searchTerm minPrice maxPrice in
       command (Goto searchURL "networkidle0" 60000) ;;
       products <- evaluate (handler_products minOrderCount) ;;
       browser_close ;;
       scraped <- date_now ;;
       let result :=
         ResultBody
           {| search_term := searchTerm;
              min_price := minPrice;
              max_price := maxPrice;
              min_order_count := minOrderCount;
              total_products := Z.of_nat (length products);
              report_scraped_at := scraped |}
           products in
       ret {| status := 200; json := result |})
      (fun error =>
         console_error error ;;
         ret {| status := 500;
                json := ErrorBody "Scraping failed" (Some (details_of error)) |})
  end.

End Handler.

(* ===================================================================== *)
(** ** Reading a log *)
(* ===================================================================== *)

(** The error of a call that threw. *)
Definition failure_of (ev : Event) : option Error :=
  match ev with
  | ECommand _ (Throw e) => Some e
  | EExecutablePath (Throw e) => Some e
  | EEvaluate (Throw e) => Some e
  | EQuery _ (Throw e) => Some e
  | _ => None
  end.

Definition is_evaluate (ev : Event) : bool :=
  match ev with EEvaluate _ => true | _ => false end.

Definition is_close (ev : Event) : bool :=
  match ev with EClose => true | _ => false end.

Definition is_launched (ev : Event) : bool :=
  match ev with ECommand (Launch _) (Ok _) => true | _ => false end.

(** Number of extraction passes / of session closes in a log. *)
Definition extractions (tr : list Event) : nat := length (filter is_evaluate tr).
Definition closes (tr : list Event) : nat := length (filter is_close tr).
Definition launches (tr : list Event) : nat := length (filter is_launched tr).

(** The values [pageNum] took at the start of the iterations, in order. *)
Fixpoint page_numbers (tr : list Event) : list Z :=
  match tr with
  | EPage p :: r => p :: page_numbers r
  | _ :: r => page_numbers r
  | [] => []
  end.

(** The records the class's callback returned over the successful
    extraction passes of a log, in order. *)
Fixpoint harvest (options : Options) (tr : list Event) : list ProductRecord :=
  match tr with
  | EEvaluate (Ok els) :: r => (pageProducts options els ++ harvest options r)%list
  | _ :: r => harvest options r
  | [] => []
  end.

(** A call that did not throw, or an event that is not a call. *)
Definition quiet (ev : Event) : bool :=
  match failure_of ev with
  | Some _ => false
  | None => true
  end.

(** The events that end the pagination loop where they occur: a call that
    threw, and the search for a next-page button that found none. *)
Definition ends_loop (ev : Event) : bool :=
  match ev with
  | EQuery _ (Ok false) => true
  | _ => negb (quiet ev)
  end.

(** No event satisfying [P] is followed by another event. *)
Fixpoint nothing_after (P : Event -> bool) (tr : list Event) : bool :=
  match tr with
  | [] => true
  | ev :: rest =>
      match rest with
      | [] => true
      | _ => negb (P ev) && nothing_after P rest
      end
  end.

(** The last event of a log is a call that threw [e], and no earlier call
    threw. *)
Fixpoint throws_last (tr : list Event) (e : Error) : Prop :=
  match tr with
  | [] => False
  | ev :: rest =>
      match rest with
      | [] => failure_of ev = Some e
      | _ => quiet ev = true /\ throws_last rest e
      end
  end.

(** A log agrees with an outcome: no call threw when the outcome is a
    value, and the last call threw the error when it is an error. *)
Definition agrees {A : Type} (tr : list Event) (r : Outcome A) : Prop :=
  match r with
  | Ok _ => forallb quiet tr = true
  | Throw e => throws_last tr e
  end.

(** The error of the first call that threw, with the events after it. *)
Fixpoint first_failure (tr : list Event) : option (Error * list Event) :=
  match tr with
  | [] => None
  | ev :: rest =>
      match failure_of ev with
      | Some e => Some (e, rest)
      | None => first_failure rest
      end
  end.

Definition is_command (ev : Event) : bool :=
  match ev with ECommand _ _ => true | _ => false end.

(** [p; p+1; ...] of length [n]. *)
Fixpoint count_from (p : Z) (n : nat) : list Z :=
  match n with
  | O => []
  | S n' => p :: count_from (p + 1) n'
  end.

(** The logs the pagination loop can write when entered with [pageNum],
    each with the way the loop ends: one constructor per path through the
    loop body. *)
Inductive LoopTrace (options : Options) : Z -> list Event -> Outcome LoopExit -> Prop :=
| LT_cond p :
    maxPages options < p ->
    LoopTrace options p [] (Ok (LoopCond p))
| LT_evaluate_throws p e :
    p <= maxPages options ->
    LoopTrace options p [EPage p; EEvaluate (Throw e)] (Throw e)
| LT_query_throws p els e :
    p <= maxPages options ->
    LoopTrace options p
      [EPage p; EEvaluate (Ok els); EQuery ".next-page" (Throw e)] (Throw e)
| LT_break p els b :
    p <= maxPages options ->
    b && (p <? maxPages options) = false ->
    LoopTrace options p
      [EPage p; EEvaluate (Ok els); EQuery ".next-page" (Ok b)]
      (Ok (LoopBreak p b))
| LT_click_throws p els e :
    p < maxPages options ->
    LoopTrace options p
      [EPage p; EEvaluate (Ok els); EQuery ".next-page" (Ok true);
       ECommand Click (Throw e)] (Throw e)
| LT_wait_throws p els e :
    p < maxPages options ->
    LoopTrace options p
      [EPage p; EEvaluate (Ok els); EQuery ".next-page" (Ok true);
       ECommand Click (Ok tt); ECommand (WaitForTimeout 2000) (Throw e)] (Throw e)
| LT_advance p els tr r :
    p < maxPages options ->
    LoopTrace options (p + 1) tr r ->
    LoopTrace options p
      ([EPage p; EEvaluate (Ok els); EQuery ".next-page" (Ok true);
        ECommand Click (Ok tt); ECommand (WaitForTimeout 2000) (Ok tt)] ++ tr)%list
      r.

(** The logs of the body of the [try] block. *)
Inductive CrawlTrace (options : Options) (url : string)
  : list Event -> Outcome LoopExit -> Prop :=
| CT_goto_throws e :
    CrawlTrace options url
      [ECommand (Goto url "networkidle0" 60000) (Throw e)] (Throw e)
| CT_wait_throws e :
    CrawlTrace options url
      [ECommand (Goto url "networkidle0" 60000) (Ok tt);
       ECommand (WaitForSelector ".product-item" 10000) (Throw e)] (Throw e)
| CT_loop tr r :
    LoopTrace options 1 tr r ->
    CrawlTrace options url
      ([ECommand (Goto url "networkidle0" 60000) (Ok tt);
        ECommand (WaitForSelector ".product-item" 10000) (Ok tt)] ++ tr)%list
      r.

(** What [catch] and [finally] add to the log after the [try] block. *)
Definition epilogue {A : Type} (r : Outcome A) : list Event :=
  match r with
  | Ok _ => [EClose]
  | Throw e => [EConsoleError e; EClose]
  end.

(* ===================================================================== *)
(** ** The emitted JSON *)
(* ===================================================================== *)

Inductive JsValue :=
| JNull
| JNumber (n : Z)
| JString (s : string).

(** A product record as the JavaScript object that is serialised into the
    response and the report: key and value of each property. *)
Definition product_object (r : ProductRecord) : list (string * JsValue) :=
  [("id", JString (id r));
   ("title", JString (title r));
   ("price", JString (price r));
   ("orderCount", JString (orderCount r));
   ("rating", JString (rating r));
   ("link", JString (link r));
   ("scraped_at", JString (scraped_at r))].

Fixpoint property (o : list (string * JsValue)) (key : string) : option JsValue :=
  match o with
  | [] => None
  | (k, v) :: rest => if String.eqb k key then Some v else property rest key
  end.

(* ===================================================================== *)
(** ** What the specification says, in its own words *)
(* ===================================================================== *)

(** "stripping all non-digit characters from orderCountText and parsing
    the remainder as an integer; an empty or unparseable remainder yields
    0". *)
Definition spec_orderCount (orderCountText : string) : Z :=
  match filter is_digit (chars orderCountText) with
  | [] => 0
  | ds => digits_value ds
  end.

(** A number is at least the integer [m]. *)
Definition at_least (x : JsNum) (m : Z) : Prop :=
  match x with
  | NaN => False
  | Num n => m <= n
  | Inf negative => negative = false
  end.

(** "a record passes when, if spec.minOrderCount is present,
    record.orderCount >= spec.minOrderCount". *)
Definition spec_passes (minOrderCount : option Z) (orderCount : JsNum) : Prop :=
  match minOrderCount with
  | Some m => at_least orderCount m
  | None => True
  end.

(* ===================================================================== *)
(** ** A scripted environment, for running the program *)
(* ===================================================================== *)

Module Scripted.

Record Page := mkPage {
  items : list (Element * string);
  has_next : bool
}.

(** A site of result pages; [fault] is the number of the call that throws
    (calls are counted from 0), if any. *)
Record World := mkWorld {
  site : list Page;
  current : nat;
  calls : nat;
  fault : option nat;
  live : nat
}.

Definition the_page (w : World) : Page :=
  nth (current w) (site w) (mkPage [] false).

Definition faulty (w : World) : bool :=
  match fault w with
  | Some n => Nat.eqb n (calls w)
  | None => false
  end.

Definition tick (w : World) : World :=
  mkWorld (site w) (current w) (S (calls w)) (fault w) (live w).

Definition call {A : Type} (w : World) (a : A) (after : World -> World)
  : Outcome A * World :=
  if faulty w then (Throw "Navigation timeout", tick w)
  else (Ok a, after (tick w)).

Definition effect (c : Command) (w : World) : World :=
  match c with
  | Launch _ => mkWorld (site w) (current w) (calls w) (fault w) (S (live w))
  | Click => mkWorld (site w) (S (current w)) (calls w) (fault w) (live w)
  | _ => w
  end.

Definition browser : Env :=
  {| world := World;
     run_command := fun c w => call w tt (effect c);
     executablePath := fun w => call w "/tmp/chromium" (fun w => w);
     evaluate_items := fun w => call w (items (the_page w)) (fun w => w);
     query_selector := fun _ w => call w (has_next (the_page w)) (fun w => w);
     close_browser := fun w =>
       mkWorld (site w) (current w) (calls w) (fault w) (pred (live w));
     now := fun _ => "2024-01-01T00:00:00.000Z" |}.

Definition start (pages : list Page) (fault : option nat) : State browser :=
  @mkState browser (mkWorld pages 0 0 fault 0) [] [].

Definition item (id_ orders : string) : Element * string :=
  (mkElement (Some id_) (Some "Phone") (Some "US $120.00") (Some orders)
     (Some "4.8") (Some "https://www.aliexpress.com/item/1.html"),
   "2024-01-01T00:00:00.000Z").

Definition options (minOrderCount : option Z) (maxPages : Z) : Options :=
  {| headless := true; searchTerm := "smartphone"; minPrice := None;
     maxPrice := None; minOrderCount := minOrderCount; maxPages := maxPages |}.

(** One page with three items ordered 10, 60 and 200 times. *)
Definition one_page : list Page :=
  [mkPage [item "1" "10 orders"; item "2" "60 orders"; item "3" "200 orders"]
     false].

(** Three pages; the first two have a next-page button. *)
Definition three_pages : list Page :=
  [mkPage [item "1" "10 orders"; item "2" "60 orders"] true;
   mkPage [item "3" "200 orders"] true;
   mkPage [item "4" "1,234 orders"] false].

(** A POST request whose body is the object [b]. *)
Definition post (b : RequestBody) : Request :=
  {| method := "POST"; body := Some b |}.

(** The body [{}]: an object with none of the five properties. *)
Definition no_body : RequestBody := mkBody None None None None None.

End Scripted.

(* ===================================================================== *)
(** ** More readings of a log *)
(* ===================================================================== *)

Definition is_click (ev : Event) : bool :=
  match ev with ECommand Click _ => true | _ => false end.

(** Number of times the next-page button was clicked (or the click tried). *)
Definition clicks (tr : list Event) : nat := length (filter is_click tr).

(** The URLs [page.goto] was called with, in order. *)
Fixpoint goto_urls (tr : list Event) : list string :=
  match tr with
  | ECommand (Goto url _ _) _ :: r => url :: goto_urls r
  | _ :: r => goto_urls r
  | [] => []
  end.

(** The calls of [initialize]. *)
Definition is_setup (ev : Event) : bool :=
  match ev with
  | ECommand (Launch _) _ | ECommand NewPage _ | ECommand (SetUserAgent _) _
  | ECommand (SetRequestInterception _) _ | ECommand OnRequest _ => true
  | _ => false
  end.

(** A navigation to the search page, or the wait for its first item, that
    threw. *)
Definition nav_failed (ev : Event) : bool :=
  match ev with
  | ECommand (Goto _ _ _) (Throw _) => true
  | ECommand (WaitForSelector _ _) (Throw _) => true
  | _ => false
  end.

(** The log of a handler run in which no call throws. *)
Definition handler_log (path url : string) (els : list (Element * string))
  : list Event :=
  [EExecutablePath (Ok path);
   ECommand (Launch (ChromiumConfig path)) (Ok tt);
   ECommand NewPage (Ok tt);
   ECommand (Goto url "networkidle0" 60000) (Ok tt);
   EEvaluate (Ok els);
   EClose].

(** Bytes a built URL is made of: letters, digits and [- _ . * % + = & : / ?]. *)
Definition url_safe (c : ascii) : bool :=
  Url.is_alnum c
  || existsb (fun x => code c =? x) [45; 95; 46; 42; 37; 43; 61; 38; 58; 47; 63].

(** The pages a crawl of at most [budget] pages reads on the scripted
    site, from page index [current] on: it goes on while the page read has
    a next-page button. *)
Fixpoint visit (site : list Scripted.Page) (current budget : nat)
  : list Scripted.Page :=
  match budget with
  | O => []
  | S b =>
      let pg := nth current site (Scripted.mkPage [] false) in
      pg :: (if Scripted.has_next pg then visit site (S current) b else [])
  end.

(* ===================================================================== *)
(** ** The rest of the class: constructor, exportToJson, run, main *)
(* ===================================================================== *)

(** The argument of the constructor; [None] is a key the caller leaves
    out, and for a nullable option [Some None] is an explicit [null]. *)
Record OptionsInput := mkInput {
  in_headless : option bool;
  in_searchTerm : option string;
  in_minPrice : option (option Z);
  in_maxPrice : option (option Z);
  in_minOrderCount : option (option Z);
  in_shippingCountry : option (option string);
  in_maxPages : option Z;
  in_outputFile : option string
}.

(** [this.options] in full: the options the crawl reads, and the two
    others. *)
Record ScraperOptions := mkScraperOptions {
  crawl_options : Options;
  shippingCountry : option string;
  outputFile : string
}.

(** The constructor (lines 106-120):
    [this.options = { ...this.defaultOptions, ...options }]. *)
Definition AliExpressScraper (options : OptionsInput) : ScraperOptions :=
  {| crawl_options :=
       {| headless := dflt (in_headless options) (headless defaultOptions);
          searchTerm := dflt (in_searchTerm options) (searchTerm defaultOptions);
          minPrice := dflt (in_minPrice options) (minPrice defaultOptions);
          maxPrice := dflt (in_maxPrice options) (maxPrice defaultOptions);
          minOrderCount :=
            dflt (in_minOrderCount options) (minOrderCount defaultOptions);
          maxPages := dflt (in_maxPages options) (maxPages defaultOptions) |};
     shippingCountry := dflt (in_shippingCountry options) None;
     outputFile := dflt (in_outputFile options) "aliexpress_products.json" |}.

(** [jsonOutput] of [exportToJson] (lines 227-237). *)
Record JsonOutput := mkJsonOutput {
  metadata : Metadata;
  report_products : list ProductRecord
}.

(** The file system: [fs.writeFile(path, JSON.stringify(data, null, 2))].
    The text written is a function of [data]; the environment is handed
    [data]. *)
Record FileSystem := mkFileSystem {
  disk : Type;
  writeFile : string -> JsonOutput -> disk -> Outcome unit * disk
}.

(** What the class writes to the file system and to the console. *)
Inductive Output :=
| OWriteFile (path : string) (data : JsonOutput) (r : Outcome unit)
| OLog (line : string)
| OLogJson (data : JsonOutput)
| OError (label : string) (e : Error).

Section Process.

Context {E : Env} {F : FileSystem}.

(** The browser session, the file system and the console output. *)
Record Process := mkProcess {
  session : State E;
  files : disk F;
  output : list Output
}.

Definition R (A : Type) : Type := Process -> Outcome A * Process.

Definition unit_R {A} (a : A) : R A := fun p => (Ok a, p).

Definition bind_R {A B} (m : R A) (k : A -> R B) : R B :=
  fun p =>
    match m p with
    | (Ok a, p') => k a p'
    | (Throw e, p') => (Throw e, p')
    end.

Definition catch_R {A} (body : R A) (handler : Error -> R A) : R A :=
  fun p =>
    match body p with
    | (Ok a, p') => (Ok a, p')
    | (Throw e, p') => handler e p'
    end.

(** A computation on the browser session, run inside the process. *)
Definition on_session {A} (m : M E A) : R A :=
  fun p =>
    let '(r, s) := m (session p) in
    (r, {| session := s; files := files p; output := output p |}).

Definition print (o : Output) (p : Process) : Process :=
  {| session := session p; files := files p;
     output := (output p ++ [o])%list |}.

Definition fs_writeFile (path : string) (data : JsonOutput) : R unit :=
  fun p =>
    let '(r, d) := writeFile F path data (files p) in
    (r, print (OWriteFile path data r)
          {| session := session p; files := d; output := output p |}).

Definition console_log (line : string) : R unit :=
  fun p => (Ok tt, print (OLog line) p).

Definition console_log_json (data : JsonOutput) : R unit :=
  fun p => (Ok tt, print (OLogJson data) p).

Definition console_error_R (label : string) (e : Error) : R unit :=
  fun p => (Ok tt, print (OError label e) p).

End Process.

Arguments Process E F : clear implicits.
Arguments R E F A : clear implicits.

Declare Scope process_scope.
Delimit Scope process_scope with process.
Notation "x <- m ;; k" := (bind_R m (fun x => k))
  (at level 61, m at next level, right associativity) : process_scope.
Notation "m ;; k" := (bind_R m (fun _ => k))
  (at level 61, right associativity) : process_scope.

Section ExportAndRun.

Context {E : Env} {F : FileSystem}.

Local Open Scope process_scope.

(** [exportToJson(products)] (lines 226-250) *)
Definition exportToJson (this : ScraperOptions) (products : list ProductRecord)
  : R E F JsonOutput :=
  scraped <- on_session date_now ;;
  let jsonOutput :=
    {| metadata :=
         {| search_term := searchTerm (crawl_options this);
            min_price := minPrice (crawl_options this);
            max_price := maxPrice (crawl_options this);
            min_order_count := minOrderCount (crawl_options this);
            total_products := Z.of_nat (length products);
            report_scraped_at := scraped |};
       report_products := products |} in
  catch_R
    (fs_writeFile (outputFile this) jsonOutput ;;
     console_log ("JSON Export completed: " ++ outputFile this))
    (fun error => console_error_R "JSON export error:" error) ;;
  unit_R jsonOutput.

(** [run()] (lines 252-255) *)
Definition run (this : ScraperOptions) : R E F JsonOutput :=
  products <- on_session (scrapeProducts (crawl_options this)) ;;
  exportToJson this products.

(** The options of [main] (lines 260-267). *)
Definition main_options : OptionsInput :=
  {| in_headless := None;
     in_searchTerm := Some "smartphone";
     in_minPrice := Some (Some 100);
     in_maxPrice := Some (Some 500);
     in_minOrderCount := Some (Some 50);
     in_shippingCountry := None;
     in_maxPages := Some 3;
     in_outputFile := Some "aliexpress_smartphones.json" |}.

(** [main()] (lines 259-276) *)
Definition main : R E F unit :=
  let scraper := AliExpressScraper main_options in
  catch_R
    (result <- run scraper ;;
     console_log
       ("Scraped "
        ++ number_toString (Z.of_nat (length (report_products result)))
        ++ " products") ;;
     console_log_json result)
    (fun error => console_error_R "Scraping failed:" error).

End ExportAndRun.

(** The report [exportToJson] builds for [products] at time [scraped]. *)
Definition report_of (this : ScraperOptions) (products : list ProductRecord)
  (scraped : string) : JsonOutput :=
  {| metadata :=
       {| search_term := searchTerm (crawl_options this);
          min_price := minPrice (crawl_options this);
          max_price := maxPrice (crawl_options this);
          min_order_count := minOrderCount (crawl_options this);
          total_products := Z.of_nat (length products);
          report_scraped_at := scraped |};
     report_products := products |}.

(** What [exportToJson] prints once the write has returned or thrown. *)
Definition export_note (path : string) (r : Outcome unit) : Output :=
  match r with
  | Ok _ => OLog ("JSON Export completed: " ++ path)
  | Throw e => OError "JSON export error:" e
  end.

(** A file system that keeps what is written, and one that refuses every
    write. *)
Definition memory_fs : FileSystem :=
  {| disk := list (string * JsonOutput);
     writeFile := fun path data d => (Ok tt, ((path, data) :: d)%list) |}.

Definition readonly_fs : FileSystem :=
  {| disk := unit;
     writeFile := fun _ _ d => (Throw "EACCES: permission denied", d) |}.

(* ===================================================================== *)
(** * Properties *)
(* ===================================================================== *)

(** ** Strings and the derived order count *)

Lemma chars_of_chars (l : list ascii) : chars (of_chars l) = l.
Proof. apply list_ascii_of_string_of_list_ascii. Qed.

Lemma of_chars_chars (s : string) : of_chars (chars s) = s.
Proof. apply string_of_list_ascii_of_string. Qed.

Lemma is_digit_range (c : ascii) :
  is_digit c = true <-> 48 <= code c <= 57.
Proof.
  unfold is_digit. rewrite andb_true_iff, !Z.leb_le. tauto.
Qed.

Lemma not_digit_above (c : ascii) : 57 < code c -> is_digit c = false.
Proof.
  intros H. destruct (is_digit c) eqn:D; [| reflexivity].
  apply is_digit_range in D. lia.
Qed.

Lemma not_digit_below (c : ascii) : code c < 48 -> is_digit c = false.
Proof.
  intros H. destruct (is_digit c) eqn:D; [| reflexivity].
  apply is_digit_range in D. lia.
Qed.

Lemma ws1_not_digit (a : ascii) : ws1 a = true -> is_digit a = false.
Proof.
  unfold ws1. cbv zeta.
  rewrite orb_true_iff, andb_true_iff, !Z.leb_le, Z.eqb_eq.
  intros H. apply not_digit_below. lia.
Qed.

Lemma ws2_not_digit (a b : ascii) :
  ws2 a b = true -> is_digit a = false /\ is_digit b = false.
Proof.
  unfold ws2. rewrite andb_true_iff, !Z.eqb_eq.
  intros [Ha Hb]. split; apply not_digit_above; lia.
Qed.

Lemma ws3_not_digit (a b c : ascii) :
  ws3 a b c = true ->
  is_digit a = false /\ is_digit b = false /\ is_digit c = false.
Proof.
  unfold ws3. cbv zeta.
  rewrite !orb_true_iff, !andb_true_iff, !orb_true_iff, ?andb_true_iff,
    !Z.eqb_eq, !Z.leb_le.
  intros H. repeat split; apply not_digit_above; lia.
Qed.

(** White space removal leaves the digits of a text alone. *)
Lemma drop_ws_digits_bounded (fwd : bool) (n : nat) :
  forall l, (length l <= n)%nat ->
  filter is_digit (drop_ws fwd l) = filter is_digit l.
Proof.
  induction n as [| n IH]; intros l Hl.
  - destruct l; [reflexivity | simpl in Hl; lia].
  - destruct l as [| a r1]; [reflexivity |].
    simpl in Hl. simpl drop_ws.
    destruct (ws1 a) eqn:W1.
    { rewrite IH by lia. simpl. now rewrite (ws1_not_digit _ W1). }
    destruct r1 as [| b r2]; [reflexivity |].
    simpl in Hl.
    destruct (if fwd then ws2 a b else ws2 b a) eqn:W2.
    { rewrite IH by lia.
      assert (is_digit a = false /\ is_digit b = false) as [Da Db].
      { destruct fwd; apply ws2_not_digit in W2; tauto. }
      simpl. now rewrite Da, Db. }
    destruct r2 as [| c r3]; [reflexivity |].
    simpl in Hl.
    destruct (if fwd then ws3 a b c else ws3 c b a) eqn:W3; [| reflexivity].
    rewrite IH by lia.
    assert (is_digit a = false /\ is_digit b = false /\ is_digit c = false)
      as (Da & Db & Dc).
    { destruct fwd; apply ws3_not_digit in W3; tauto. }
    simpl. now rewrite Da, Db, Dc.
Qed.

Lemma drop_ws_digits (fwd : bool) (l : list ascii) :
  filter is_digit (drop_ws fwd l) = filter is_digit l.
Proof. apply (drop_ws_digits_bounded fwd (length l)). lia. Qed.

Lemma filter_rev_digits (l : list ascii) :
  filter is_digit (rev l) = rev (filter is_digit l).
Proof.
  induction l as [| a l IH]; [reflexivity |].
  simpl. rewrite filter_app, IH. simpl.
  destruct (is_digit a); simpl; [reflexivity | now rewrite app_nil_r].
Qed.

Lemma trim_digits (s : string) :
  replace_non_digits (trim s) = replace_non_digits s.
Proof.
  unfold replace_non_digits, trim, trimEnd, trimStart.
  rewrite !chars_of_chars.
  rewrite filter_rev_digits, drop_ws_digits, filter_rev_digits, rev_involutive.
  now rewrite drop_ws_digits.
Qed.

Lemma drop_ws_digit_head (c : ascii) (r : list ascii) :
  is_digit c = true -> drop_ws true (c :: r) = c :: r.
Proof.
  intros D. simpl.
  destruct (ws1 c) eqn:W1.
  { apply ws1_not_digit in W1. congruence. }
  destruct r as [| b r2]; [reflexivity |].
  destruct (ws2 c b) eqn:W2.
  { apply ws2_not_digit in W2. destruct W2. congruence. }
  destruct r2 as [| d r3]; [reflexivity |].
  destruct (ws3 c b d) eqn:W3; [| reflexivity].
  apply ws3_not_digit in W3. destruct W3. congruence.
Qed.

Lemma digit_prefix_all (l : list ascii) :
  forallb is_digit l = true -> digit_prefix l = l.
Proof.
  induction l as [| c r IH]; [reflexivity |].
  simpl. intros H. apply andb_true_iff in H as [Hc Hr].
  now rewrite Hc, IH.
Qed.

Lemma filter_all_digits (l : list ascii) :
  forallb is_digit (filter is_digit l) = true.
Proof.
  induction l as [| c r IH]; [reflexivity |].
  simpl. destruct (is_digit c) eqn:D; [simpl; now rewrite D | exact IH].
Qed.

Lemma digit_not_sign (c : ascii) :
  is_digit c = true -> c <> "-"%char /\ c <> "+"%char.
Proof.
  intros D. split; intros ->; vm_compute in D; discriminate.
Qed.

(** Up to 2^53 every integer is a double. *)
Lemma nearest_double_exact (n : Z) :
  n <= 2 ^ 53 -> nearest_double n = Num n.
Proof.
  intros H. unfold nearest_double.
  destruct (Z.ltb_spec n (2 ^ 53)) as [Hlt | Hge]; [reflexivity |].
  assert (n = 2 ^ 53) as -> by lia. reflexivity.
Qed.

Lemma nearest_double_nonneg (n : Z) :
  0 <= n ->
  match nearest_double n with
  | NaN => False
  | Num m => 0 <= m
  | Inf negative => negative = false
  end.
Proof.
  intros H. unfold nearest_double.
  destruct (n <? 2 ^ 53); [exact H |].
  cbv zeta.
  set (e := Z.log2 n - 52).
  set (q := n / 2 ^ e).
  set (q' := if _ : bool then q + 1 else q).
  destruct (1024 <=? Z.log2 (q' * 2 ^ e)); [reflexivity |].
  assert (0 <= 2 ^ e) as Hp by apply Z.pow_nonneg, Z.lt_le_incl, Z.lt_0_2.
  assert (0 <= q) as Hq.
  { unfold q. destruct (Z.eq_dec (2 ^ e) 0) as [E0 | E0].
    - rewrite E0, Z.div_0_r. lia.
    - apply Z.div_pos; lia. }
  assert (0 <= q') as Hq' by (unfold q'; destruct (_ : bool); lia).
  now apply Z.mul_nonneg_nonneg.
Qed.

Lemma to_double_nonneg (n : Z) : 0 <= n -> to_double n = nearest_double n.
Proof.
  intros H. unfold to_double.
  destruct (Z.ltb_spec n 0); [lia | reflexivity].
Qed.

(** [parseInt] of a text made of digits only. *)
Lemma parseInt10_digits (l : list ascii) :
  forallb is_digit l = true ->
  parseInt10 (of_chars l) =
  match l with [] => NaN | _ => nearest_double (digits_value l) end.
Proof.
  intros H. unfold parseInt10. rewrite chars_of_chars.
  destruct l as [| c r]; [reflexivity |].
  pose proof H as H'. simpl in H'. apply andb_true_iff in H' as [Hc Hr].
  rewrite (drop_ws_digit_head c r Hc).
  destruct (digit_not_sign c Hc) as [Hm Hp].
  assert (match c :: r with
          | "-"%char :: r0 => (true, r0)
          | "+"%char :: r0 => (false, r0)
          | _ => (false, c :: r)
          end = (false, c :: r)) as ->.
  { destruct c as [[] [] [] [] [] [] [] []]; try reflexivity;
      exfalso; auto. }
  now rewrite (digit_prefix_all _ H).
Qed.

Lemma fold_digits_nonneg (l : list ascii) :
  forallb is_digit l = true ->
  forall acc, 0 <= acc ->
  0 <= fold_left (fun a c => a * 10 + digit_value c) l acc.
Proof.
  induction l as [| c r IH]; intros H acc Hacc; [exact Hacc |].
  simpl in *. apply andb_true_iff in H as [Hc Hr].
  apply IH; [exact Hr |].
  apply is_digit_range in Hc. unfold digit_value. lia.
Qed.

Lemma digits_value_nonneg (l : list ascii) :
  forallb is_digit l = true -> 0 <= digits_value l.
Proof. intros H. apply fold_digits_nonneg; [exact H | lia]. Qed.

Lemma spec_orderCount_nonneg (text : string) : 0 <= spec_orderCount text.
Proof.
  unfold spec_orderCount.
  pose proof (filter_all_digits (chars text)) as H.
  destruct (filter is_digit (chars text)) as [| c r]; [lia |].
  now apply digits_value_nonneg.
Qed.

Lemma num_or_zero (x : JsNum) :
  num_or x 0 = match x with NaN => Num 0 | _ => x end.
Proof.
  destruct x as [| n | b]; try reflexivity.
  simpl. destruct (Z.eqb_spec n 0); congruence.
Qed.

(** The count the code derives is the exact count of the specification,
    rounded to the nearest double. *)
Lemma count_of_text_spec (text : string) :
  count_of_text text = to_double (spec_orderCount text).
Proof.
  rewrite (to_double_nonneg _ (spec_orderCount_nonneg text)).
  unfold count_of_text, spec_orderCount, replace_non_digits.
  rewrite parseInt10_digits by apply filter_all_digits.
  rewrite num_or_zero.
  pose proof (filter_all_digits (chars text)) as Hd.
  destruct (filter is_digit (chars text)) as [| c r] eqn:El; [reflexivity |].
  pose proof (nearest_double_nonneg _ (digits_value_nonneg _ Hd)) as Hn.
  destruct (nearest_double (digits_value (c :: r))); [destruct Hn | reflexivity ..].
Qed.

Lemma count_of_text_nonneg (text : string) : at_least (count_of_text text) 0.
Proof.
  rewrite count_of_text_spec, (to_double_nonneg _ (spec_orderCount_nonneg text)).
  pose proof (nearest_double_nonneg _ (spec_orderCount_nonneg text)) as H.
  unfold at_least. destruct (nearest_double (spec_orderCount text)); exact H.
Qed.

Lemma count_of_text_exact (text : string) :
  spec_orderCount text <= 2 ^ 53 ->
  count_of_text text = Num (spec_orderCount text).
Proof.
  intros H.
  rewrite count_of_text_spec, (to_double_nonneg _ (spec_orderCount_nonneg text)).
  now apply nearest_double_exact.
Qed.

Lemma spec_orderCount_trim (text : string) :
  spec_orderCount (trim text) = spec_orderCount text.
Proof.
  pose proof (trim_digits text) as H. unfold replace_non_digits in H.
  apply (f_equal chars) in H. rewrite !chars_of_chars in H.
  unfold spec_orderCount. now rewrite H.
Qed.

(** Both variants derive the same number from an element: the handler from
    the [innerText] of the order-count element, the class from the
    [orderCount] text of the record it built. *)
Lemma handler_orderCount_record (el : Element) (now : string) :
  handler_orderCount el = count_of_text (orderCount (product_of el now)).
Proof.
  unfold handler_orderCount, product_of, text_or. simpl.
  destruct (orders_count el) as [t |]; [| reflexivity].
  now rewrite !count_of_text_spec, spec_orderCount_trim.
Qed.

(** C5, as the specification words it, fails past 2^53: [parseInt]
    returns a double, and the digits 9007199254740995 give
    9007199254740996. *)
Lemma orderCount_is_rounded_past_2_53 :
  ~ (forall text : string, count_of_text text = Num (spec_orderCount text)).
Proof.
  intros H. specialize (H "9007199254740995 orders").
  vm_compute in H. discriminate.
Qed.

(** C5, amended.  For every raw order-count text whose digits write an
    integer of at most 2^53 the derived order count is that integer, the
    one read from the text once every non-digit character is removed, and
    0 when nothing remains; past 2^53 it is that integer rounded to the
    nearest double.  The class derives it from a record's text and the
    handler from the element, with the same result.  "1,234 orders" gives
    1234, "" gives 0 and "N/A" gives 0. *)
Theorem orderCount_derivation :
  (forall text : string,
      spec_orderCount text <= 2 ^ 53 ->
      count_of_text text = Num (spec_orderCount text))
  /\ (forall text : string,
        count_of_text text = to_double (spec_orderCount text))
  /\ (forall (el : Element) (now : string),
        handler_orderCount el = count_of_text (orderCount (product_of el now)))
  /\ count_of_text "1,234 orders" = Num 1234
  /\ count_of_text "" = Num 0
  /\ count_of_text "N/A" = Num 0.
Proof.
  split; [exact count_of_text_exact |].
  split; [exact count_of_text_spec |].
  split; [exact handler_orderCount_record |].
  repeat split; reflexivity.
Qed.

(** The amended C5 on "1,234 orders". *)
Lemma orderCount_derivation_witness :
  spec_orderCount "1,234 orders" <= 2 ^ 53
  /\ count_of_text "1,234 orders" = Num (spec_orderCount "1,234 orders").
Proof.
  split; [vm_compute; discriminate |].
  apply (proj1 orderCount_derivation). vm_compute. discriminate.
Defined.

(** ** Filter Engine *)

Lemma passes_iff (options : Options) (product : ProductRecord) :
  passes options product = true
  <-> spec_passes (minOrderCount options) (count_of_text (orderCount product)).
Proof.
  unfold passes, spec_passes. cbv zeta.
  pose proof (count_of_text_nonneg (orderCount product)) as Hpos.
  destruct (minOrderCount options) as [m |]; simpl; [| tauto].
  destruct (Z.eqb_spec m 0) as [-> | Hm]; simpl.
  - split; [intros _; exact Hpos | reflexivity].
  - unfold num_ge, at_least in *.
    destruct (count_of_text (orderCount product)) as [| n | b].
    + split; [discriminate | tauto].
    + apply Z.leb_le.
    + subst b. split; reflexivity.
Qed.

(** A derived count is never [NaN], so the handler's test [count < m] is
    the negation of the class's test [count >= m]. *)
Lemma count_lt_not_ge (text : string) (m : option Z) :
  num_lt (count_of_text text) m = negb (num_ge (count_of_text text) m).
Proof.
  pose proof (count_of_text_nonneg text) as Hpos.
  unfold num_lt, num_ge, at_least in *.
  destruct (count_of_text text) as [| n | b]; [destruct Hpos | |].
  - apply Z.ltb_antisym.
  - now destruct b.
Qed.

Lemma handler_item_passes (options : Options) (el : Element) (now : string) :
  handler_item (minOrderCount options) el now
  = if passes options (product_of el now)
    then Some (product_of el now) else None.
Proof.
  unfold handler_item, passes. cbv zeta.
  rewrite (handler_orderCount_record el now), count_lt_not_ge.
  destruct (minOrderCount options) as [m |]; simpl; [| reflexivity].
  destruct (Z.eqb_spec m 0) as [-> | Hm]; simpl; [reflexivity |].
  now destruct (num_ge _ _).
Qed.

(** The handler keeps an element exactly when the threshold is absent or
    reached. *)
Lemma handler_item_spec (threshold : option Z) (el : Element) (now : string) :
  (handler_item threshold el now = Some (product_of el now)
   /\ spec_passes threshold (count_of_text (orderCount (product_of el now))))
  \/ (handler_item threshold el now = None
      /\ ~ spec_passes threshold
            (count_of_text (orderCount (product_of el now)))).
Proof.
  pose (options := mkOptions true "" None None threshold 1).
  pose proof (handler_item_passes options el now) as Hitem.
  pose proof (passes_iff options (product_of el now)) as Hiff.
  change (minOrderCount options) with threshold in Hitem, Hiff.
  rewrite Hitem.
  destruct (passes options (product_of el now)).
  - left. split; [reflexivity | now apply Hiff].
  - right. split; [reflexivity |]. intros Hs. apply Hiff in Hs. discriminate.
Qed.

Lemma non_null_map_filter {A B : Type} (f : A -> B) (p : B -> bool) (l : list A) :
  non_null (map (fun a => if p (f a) then Some (f a) else None) l)
  = filter p (map f l).
Proof.
  induction l as [| a l IH]; [reflexivity |].
  simpl. destruct (p (f a)); simpl; now rewrite IH.
Qed.

(** The two variants filter alike: the handler's map-to-null-then-drop
    returns what the class's filter returns. *)
Lemma handler_products_pageProducts (options : Options)
  (els : list (Element * string)) :
  handler_products (minOrderCount options) els = pageProducts options els.
Proof.
  unfold handler_products, pageProducts.
  rewrite <- (non_null_map_filter
                (fun '(el, now) => product_of el now) (passes options)).
  f_equal. apply map_ext. intros [el now]. apply handler_item_passes.
Qed.

Lemma handler_products_pass (threshold : option Z)
  (els : list (Element * string)) :
  Forall (fun r => spec_passes threshold (count_of_text (orderCount r)))
         (handler_products threshold els).
Proof.
  pose (options := mkOptions true "" None None threshold 1).
  pose proof (handler_products_pageProducts options els) as Heq.
  change (minOrderCount options) with threshold in Heq. rewrite Heq.
  apply Forall_forall. intros r Hr.
  unfold pageProducts in Hr. apply filter_In in Hr as [_ Hr].
  now apply (passes_iff options) in Hr.
Qed.

Lemma pageProducts_In (options : Options) (els : list (Element * string))
  (r : ProductRecord) :
  In r (pageProducts options els)
  <-> (exists el now, In (el, now) els /\ r = product_of el now)
      /\ spec_passes (minOrderCount options) (count_of_text (orderCount r)).
Proof.
  unfold pageProducts. rewrite filter_In, in_map_iff, passes_iff.
  split; intros [H1 H2]; (split; [| exact H2]).
  - destruct H1 as ([el now] & Heq & Hin). now exists el, now.
  - destruct H1 as (el & now & Hin & ->). now exists (el, now).
Qed.

Lemma harvest_app (options : Options) (tr1 tr2 : list Event) :
  harvest options (tr1 ++ tr2) = (harvest options tr1 ++ harvest options tr2)%list.
Proof.
  induction tr1 as [| ev tr1 IH]; [reflexivity |].
  destruct ev as [| | [els | e] | | | |]; simpl; rewrite IH; try reflexivity.
  now rewrite app_assoc.
Qed.

Lemma harvest_passes (options : Options) (tr : list Event) :
  Forall (fun r => spec_passes (minOrderCount options)
                     (count_of_text (orderCount r)))
         (harvest options tr).
Proof.
  induction tr as [| ev tr IH]; [constructor |].
  destruct ev as [| | [els | e] | | | |]; simpl; try exact IH.
  apply Forall_app. split; [| exact IH].
  apply Forall_forall. intros r Hr. now apply pageProducts_In in Hr.
Qed.

(** ** Extraction: sentinels and the shape of a record *)

(** C6. An element without the id attribute, or without one of the child
    elements, yields a record whose corresponding field is the sentinel:
    'N/A' for id, title, price, rating and link, '0' for the order-count
    text; every property of the emitted object is a string, never null. *)
Theorem missing_subfield_sentinels :
  forall (i t p o r a : option string) (now : string),
    id (product_of (mkElement None t p o r a) now) = "N/A"
    /\ title (product_of (mkElement i None p o r a) now) = "N/A"
    /\ price (product_of (mkElement i t None o r a) now) = "N/A"
    /\ orderCount (product_of (mkElement i t p None r a) now) = "0"
    /\ rating (product_of (mkElement i t p o None a) now) = "N/A"
    /\ link (product_of (mkElement i t p o r None) now) = "N/A"
    /\ Forall (fun kv => exists s, snd kv = JString s)
         (product_object (product_of (mkElement i t p o r a) now)).
Proof.
  intros. repeat split.
  repeat constructor; simpl; eexists; reflexivity.
Qed.

(** C9, as the specification words it, fails: the [orderCount] property of
    an emitted record is not a number. *)
Lemma orderCount_field_is_not_a_number :
  ~ (forall (el : Element) (now : string),
       exists n : Z,
         0 <= n /\
         property (product_object (product_of el now)) "orderCount"
         = Some (JNumber n)).
Proof.
  intros H.
  destruct (H (mkElement None None None (Some "1,234 orders") None None) "")
    as (n & _ & Hn).
  vm_compute in Hn. discriminate.
Qed.

(** C9, amended.  The [orderCount] property of an emitted record is the
    raw order-count text (the trimmed inner text of the order-count
    element, '0' without one); the non-negative number of C5 (the integer
    the digits write, as a double) is derived from that text when the
    record is filtered and is not stored. *)
Theorem orderCount_field_is_raw_text :
  forall (el : Element) (now : string),
    property (product_object (product_of el now)) "orderCount"
    = Some (JString (text_or (orders_count el) "0"))
    /\ at_least (count_of_text (orderCount (product_of el now))) 0
    /\ count_of_text (orderCount (product_of el now))
       = to_double (spec_orderCount (dflt (orders_count el) "0"))
    /\ Forall (fun kv => forall n, snd kv <> JNumber n)
         (product_object (product_of el now)).
Proof.
  intros el now. split; [reflexivity |].
  split; [apply count_of_text_nonneg |].
  split.
  - rewrite count_of_text_spec. unfold product_of, text_or, dflt. simpl.
    destruct (orders_count el) as [t |];
      [now rewrite spec_orderCount_trim | reflexivity].
  - repeat constructor; simpl; discriminate.
Qed.

(** ** Query Builder: what can be read back from a built URL *)

Section UrlRoundTrip.

Import Url.
Local Open Scope list_scope.

Lemma form_decode_encode_byte (c : ascii) (r : list ascii) :
  form_decode (form_encode_byte c ++ r) = c :: form_decode r.
Proof.
  destruct c as [[] [] [] [] [] [] [] []]; reflexivity.
Qed.

Lemma form_decode_encode (s : string) :
  form_decode (form_encode s) = chars s.
Proof.
  unfold form_encode.
  induction (chars s) as [| c l IH]; [reflexivity |].
  simpl flat_map. now rewrite form_decode_encode_byte, IH.
Qed.

Lemma form_encode_byte_plain (c : ascii) :
  forallb (fun x => no_amp x && no_eq x) (form_encode_byte c) = true.
Proof.
  destruct c as [[] [] [] [] [] [] [] []]; reflexivity.
Qed.

Lemma form_encode_plain (s : string) :
  forallb (fun x => no_amp x && no_eq x) (form_encode s) = true.
Proof.
  unfold form_encode.
  induction (chars s) as [| c l IH]; [reflexivity |].
  simpl flat_map. rewrite forallb_app, form_encode_byte_plain, IH. reflexivity.
Qed.

Lemma plain_no_amp (l : list ascii) :
  forallb (fun x => no_amp x && no_eq x) l = true -> forallb no_amp l = true.
Proof.
  rewrite !forallb_forall. intros H x Hx.
  specialize (H x Hx). now apply andb_true_iff in H.
Qed.

Lemma plain_no_eq (l : list ascii) :
  forallb (fun x => no_amp x && no_eq x) l = true -> forallb no_eq l = true.
Proof.
  rewrite !forallb_forall. intros H x Hx.
  specialize (H x Hx). now apply andb_true_iff in H.
Qed.

Lemma cut_eq_app (n v : list ascii) :
  forallb no_eq n = true -> cut_eq (n ++ "="%char :: v) = (n, v).
Proof.
  induction n as [| c n IH]; intros H; [reflexivity |].
  simpl in H. apply andb_true_iff in H as [Hc Hn].
  simpl. unfold no_eq in Hc. apply negb_true_iff in Hc.
  now rewrite Hc, (IH Hn).
Qed.

Lemma split_on_whole (l : list ascii) :
  forallb no_amp l = true -> split_on "&" l = [l].
Proof.
  induction l as [| c l IH]; intros H; [reflexivity |].
  simpl in H. apply andb_true_iff in H as [Hc Hl].
  unfold no_amp in Hc. apply negb_true_iff in Hc.
  simpl. change (code "&") with 38. now rewrite Hc, (IH Hl).
Qed.

Lemma split_on_app (l rest : list ascii) :
  forallb no_amp l = true ->
  split_on "&" (l ++ "&"%char :: rest) = l :: split_on "&" rest.
Proof.
  induction l as [| c l IH]; intros H; [reflexivity |].
  simpl in H. apply andb_true_iff in H as [Hc Hl].
  unfold no_amp in Hc. apply negb_true_iff in Hc.
  simpl. change (code "&") with 38. now rewrite Hc, (IH Hl).
Qed.

Lemma serialize_pair_no_amp (p : string * string) :
  forallb no_amp (serialize_pair p) = true.
Proof.
  unfold serialize_pair. rewrite forallb_app. simpl.
  now rewrite !(plain_no_amp _ (form_encode_plain _)).
Qed.

Lemma parse_serialize_pair (p : string * string) :
  parse_pair (serialize_pair p) = p.
Proof.
  destruct p as [k v]. unfold parse_pair, serialize_pair. simpl fst. simpl snd.
  rewrite (cut_eq_app _ _ (plain_no_eq _ (form_encode_plain k))).
  now rewrite !form_decode_encode, !of_chars_chars.
Qed.

Lemma serialize_pair_length (p : string * string) :
  (length (serialize_pair p) =? 0)%nat = false.
Proof.
  unfold serialize_pair. rewrite length_app. simpl.
  apply Nat.eqb_neq. lia.
Qed.

Lemma split_serialize (p : string * string) (ps : URLSearchParams) :
  split_on "&" (serialize (p :: ps)) = map serialize_pair (p :: ps).
Proof.
  revert p. induction ps as [| q ps IH]; intros p.
  - simpl. apply split_on_whole, serialize_pair_no_amp.
  - change (serialize (p :: q :: ps))
      with (serialize_pair p ++ "&"%char :: serialize (q :: ps)).
    rewrite split_on_app by apply serialize_pair_no_amp.
    now rewrite IH.
Qed.

(** Parsing what [toString] wrote gives the entries back. *)
Lemma parse_serialize (ps : URLSearchParams) :
  parse_query (serialize ps) = ps.
Proof.
  destruct ps as [| p ps]; [reflexivity |].
  unfold parse_query. rewrite split_serialize.
  remember (p :: ps) as l eqn:El. clear El p ps.
  induction l as [| p l IH]; [reflexivity |].
  simpl. rewrite serialize_pair_length. simpl.
  now rewrite parse_serialize_pair, IH.
Qed.

Lemma chars_append (s1 s2 : string) :
  chars (s1 ++ s2)%string = chars s1 ++ chars s2.
Proof.
  unfold chars. induction s1 as [| c s1 IH]; [reflexivity |].
  simpl. now rewrite IH.
Qed.

(** The parameters read from a built URL are the entries the builder
    appended, each value decoded once. *)
Lemma url_params_searchURL (term : string) (lo hi : option Z) :
  url_params (searchURL_of term lo hi) = searchParams term lo hi.
Proof.
  unfold url_params, searchURL_of, toString.
  assert (query_of (chars (baseURL ++ "?" ++ of_chars (serialize (searchParams term lo hi)))%string)
          = serialize (searchParams term lo hi)) as ->.
  { rewrite <- (chars_of_chars (serialize _)) at 2. reflexivity. }
  apply parse_serialize.
Qed.

End UrlRoundTrip.

Lemma decimal_not_empty (n : Z) : decimal n <> "".
Proof.
  unfold decimal, NilZero.string_of_int.
  destruct (Z.to_int n) as [d | d]; [| discriminate].
  unfold NilZero.string_of_uint. destruct d; discriminate.
Qed.

Lemma append_not_empty (a b : string) : b <> "" -> (a ++ b)%string <> "".
Proof. destruct a; [easy | discriminate]. Qed.

Lemma large_toString_not_empty (x : Z) : large_toString x <> "".
Proof.
  unfold large_toString. cbv zeta.
  destruct (_ <=? 21); [apply decimal_not_empty |].
  destruct (rev (strip_zeros (rev (chars (decimal _))))) as [| d [| d' ds]];
    [apply decimal_not_empty | discriminate ..].
Qed.

Lemma number_toString_not_empty (n : Z) : number_toString n <> "".
Proof.
  unfold number_toString.
  destruct (Z.abs n <=? 2 ^ 53); [apply decimal_not_empty |].
  destruct (nearest_double (Z.abs n)) as [| x | b]; [discriminate | |].
  - apply append_not_empty, large_toString_not_empty.
  - destruct (n <? 0); discriminate.
Qed.

Lemma truthy_some (x : option Z) :
  truthy x = true -> exists n, x = Some n /\ n <> 0.
Proof.
  destruct x as [n |]; simpl; [| discriminate].
  intros H. exists n. split; [reflexivity |].
  apply negb_true_iff in H. now apply Z.eqb_neq.
Qed.

Lemma searchParams_shape (term : string) (lo hi : option Z) :
  searchParams term lo hi
  = (("SearchText", Url.encodeURIComponent term)
       :: (if truthy lo then [("minPrice", opt_toString lo)] else [])
       ++ (if truthy hi then [("maxPrice", opt_toString hi)] else []))%list.
Proof.
  unfold searchParams, Url.append.
  destruct (truthy lo), (truthy hi); reflexivity.
Qed.

Lemma has_searchParams_minPrice (term : string) (lo hi : option Z) :
  Url.has (searchParams term lo hi) "minPrice" = truthy lo.
Proof.
  rewrite searchParams_shape. destruct (truthy lo), (truthy hi); reflexivity.
Qed.

Lemma has_searchParams_maxPrice (term : string) (lo hi : option Z) :
  Url.has (searchParams term lo hi) "maxPrice" = truthy hi.
Proof.
  rewrite searchParams_shape. destruct (truthy lo), (truthy hi); reflexivity.
Qed.

Lemma searchParams_price_value (term : string) (lo hi : option Z)
  (name value : string) :
  In (name, value) (searchParams term lo hi) ->
  name = "minPrice" \/ name = "maxPrice" ->
  value <> "".
Proof.
  rewrite searchParams_shape. intros Hin Hname.
  destruct Hin as [Heq | Hin].
  { inversion Heq; subst. destruct Hname; discriminate. }
  apply in_app_or in Hin.
  destruct Hin as [Hin | Hin].
  - destruct (truthy lo) eqn:T; [| contradiction].
    destruct Hin as [Heq | []]. inversion Heq; subst.
    apply truthy_some in T as (n & -> & _). apply number_toString_not_empty.
  - destruct (truthy hi) eqn:T; [| contradiction].
    destruct Hin as [Heq | []]. inversion Heq; subst.
    apply truthy_some in T as (n & -> & _). apply number_toString_not_empty.
Qed.

(** C7. The built URL is a function of the search term and the two price
    bounds of the options alone; it carries a minPrice (respectively
    maxPrice) parameter only when that bound is present, and a price
    parameter it carries never has an empty value. *)
Theorem query_builder_price_parameters :
  forall options : Options,
    (forall options' : Options,
        searchTerm options' = searchTerm options ->
        minPrice options' = minPrice options ->
        maxPrice options' = maxPrice options ->
        buildSearchURL options' = buildSearchURL options)
    /\ (Url.has (Url.url_params (buildSearchURL options)) "minPrice" = true ->
        minPrice options <> None)
    /\ (Url.has (Url.url_params (buildSearchURL options)) "maxPrice" = true ->
        maxPrice options <> None)
    /\ (forall name value : string,
          In (name, value) (Url.url_params (buildSearchURL options)) ->
          name = "minPrice" \/ name = "maxPrice" ->
          value <> "").
Proof.
  intros options. unfold buildSearchURL. rewrite url_params_searchURL.
  split; [intros o' -> -> ->; reflexivity |].
  rewrite has_searchParams_minPrice, has_searchParams_maxPrice.
  split; [| split].
  - intros T. apply truthy_some in T as (n & -> & _). discriminate.
  - intros T. apply truthy_some in T as (n & -> & _). discriminate.
  - apply searchParams_price_value.
Qed.

(** C10. A price bound that is present but equal to 0 is left out of the
    built URL, which is then the URL built without that bound. *)
Theorem zero_price_bound_omitted :
  forall (h : bool) (term : string) (lo hi oc : option Z) (pages : Z),
    buildSearchURL (mkOptions h term (Some 0) hi oc pages)
    = buildSearchURL (mkOptions h term None hi oc pages)
    /\ buildSearchURL (mkOptions h term lo (Some 0) oc pages)
       = buildSearchURL (mkOptions h term lo None oc pages)
    /\ Url.has (Url.url_params
                  (buildSearchURL (mkOptions h term (Some 0) hi oc pages)))
         "minPrice" = false
    /\ Url.has (Url.url_params
                  (buildSearchURL (mkOptions h term lo (Some 0) oc pages)))
         "maxPrice" = false.
Proof.
  intros. unfold buildSearchURL. simpl.
  rewrite !url_params_searchURL,
    has_searchParams_minPrice, has_searchParams_maxPrice.
  repeat split.
Qed.

(** What decoding the SearchText parameter of a built URL once gives: the
    output of [encodeURIComponent], not the search term. *)
Lemma searchText_read_back (term : string) (lo hi : option Z) :
  Url.get (Url.url_params (searchURL_of term lo hi)) "SearchText"
  = Some (Url.encodeURIComponent term).
Proof.
  rewrite url_params_searchURL, searchParams_shape. reflexivity.
Qed.

Lemma encodeURIComponent_unreserved (term : string) :
  forallb Url.uri_unreserved (chars term) = true ->
  Url.encodeURIComponent term = term.
Proof.
  intros H. unfold Url.encodeURIComponent.
  rewrite <- (of_chars_chars term) at 2. f_equal.
  induction (chars term) as [| c l IH]; [reflexivity |].
  simpl in H. apply andb_true_iff in H as [Hc Hl].
  simpl. now rewrite Hc, (IH Hl).
Qed.

(** The URL of the options of [main]. *)
Example buildSearchURL_main :
  buildSearchURL (mkOptions true "smartphone" (Some 100) (Some 500) (Some 50) 3)
  = "https://www.aliexpress.com/wholesale?SearchText=smartphone&minPrice=100&maxPrice=500".
Proof. reflexivity. Qed.

(** C8 fails on a search term with a space: the term is percent-encoded
    by [encodeURIComponent] and then once more by [URLSearchParams], so
    decoding the parameter once gives "a%20b". *)
Theorem searchTerm_is_encoded_twice :
  buildSearchURL (mkOptions true "a b" None None None 3)
  = "https://www.aliexpress.com/wholesale?SearchText=a%2520b"
  /\ Url.get (Url.url_params
                (buildSearchURL (mkOptions true "a b" None None None 3)))
       "SearchText" = Some "a%20b"
  /\ Url.get (Url.url_params
                (buildSearchURL (mkOptions true "a b" None None None 3)))
       "SearchText" <> Some "a b".
Proof.
  repeat split. vm_compute. discriminate.
Qed.

(** ** The pagination loop *)

Section Runs.

Context {E : Env}.

Local Open Scope list_scope.

Ltac run_in H := cbn [env log products emit with_env ret] in H.

Ltac close_trace tr :=
  exists tr; cbn [log products emit with_env harvest];
  rewrite <- ?app_assoc, ?app_nil_r; cbn [app];
  repeat split; try (constructor; assumption).

(** With fuel above the number of pages left, the loop writes one of the
    logs of [LoopTrace], and has appended to [products] what the
    successful extraction passes of that log returned. *)
Lemma pagination_trace (options : Options) (fuel : nat) :
  forall (pageNum : Z) (s s' : State E) (r : Outcome LoopExit),
    (Z.to_nat (maxPages options + 1 - pageNum) < fuel)%nat ->
    pagination options fuel pageNum s = (r, s') ->
    exists tr,
      log s' = log s ++ tr
      /\ LoopTrace options pageNum tr r
      /\ products s' = products s ++ harvest options tr.
Proof.
  induction fuel as [| fuel IH]; intros p s s' r Hfuel H; [lia |].
  simpl pagination in H.
  destruct (Z.leb_spec p (maxPages options)) as [Hle | Hgt].
  2:{ inversion H; subst. close_trace (@nil Event). }
  unfold bind, mark, evaluate, push, query, command in H. run_in H.
  destruct (evaluate_items E (env s)) as [[els | e] w1]; run_in H.
  2:{ inversion H; subst. close_trace [EPage p; EEvaluate (Throw e)]. }
  destruct (query_selector E ".next-page" w1) as [[b | e] w2]; run_in H.
  2:{ inversion H; subst.
      close_trace [EPage p; EEvaluate (Ok els); EQuery ".next-page" (Throw e)]. }
  destruct (b && (p <? maxPages options)) eqn:Adv; run_in H.
  2:{ inversion H; subst.
      close_trace [EPage p; EEvaluate (Ok els); EQuery ".next-page" (Ok b)]. }
  apply andb_true_iff in Adv as [-> Hlt]. apply Z.ltb_lt in Hlt.
  destruct (run_command E Click w2) as [[[] | e] w3]; run_in H.
  2:{ inversion H; subst.
      close_trace [EPage p; EEvaluate (Ok els); EQuery ".next-page" (Ok true);
                   ECommand Click (Throw e)]. }
  destruct (run_command E (WaitForTimeout 2000) w3) as [[[] | e] w4]; run_in H.
  2:{ inversion H; subst.
      close_trace [EPage p; EEvaluate (Ok els); EQuery ".next-page" (Ok true);
                   ECommand Click (Ok tt);
                   ECommand (WaitForTimeout 2000) (Throw e)]. }
  apply IH in H as (tr & Hlog & Htr & Hprod); [| lia].
  exists ([EPage p; EEvaluate (Ok els); EQuery ".next-page" (Ok true);
           ECommand Click (Ok tt); ECommand (WaitForTimeout 2000) (Ok tt)] ++ tr).
  rewrite Hlog, Hprod. cbn [log products emit with_env harvest].
  rewrite <- !app_assoc. cbn [app]. repeat split.
  now constructor.
Qed.

End Runs.

(** *** What every log of the loop satisfies *)

Section LoopLogs.

Local Open Scope list_scope.

Variable options : Options.

Ltac on_trace HT :=
  induction HT as
    [ p Hgt | p e Hle | p els e Hle | p els b Hle Hb
    | p els e Hlt | p els e Hlt | p els tr r Hlt HT IH ].

Lemma LoopTrace_extractions p tr r :
  LoopTrace options p tr r ->
  (extractions tr <= Z.to_nat (maxPages options + 1 - p))%nat.
Proof.
  intros HT. on_trace HT; unfold extractions in *; simpl; lia.
Qed.

(** The page numbers of a log are [p; p+1; ...], one per extraction
    pass. *)
Lemma LoopTrace_page_numbers p tr r :
  LoopTrace options p tr r ->
  page_numbers tr = count_from p (extractions tr).
Proof.
  intros HT. on_trace HT; unfold extractions in *; simpl; try reflexivity.
  now rewrite IH.
Qed.

Lemma count_from_bound (p : Z) (n : nat) (q : Z) :
  In q (count_from p n) -> p <= q < p + Z.of_nat n.
Proof.
  revert p. induction n as [| n IH]; intros p; simpl; [tauto |].
  intros [<- | Hin]; [lia |].
  apply IH in Hin. lia.
Qed.

(** The loop ends by an exception, by the [break], or at once because
    [maxPages] is below the first page; it never runs out of fuel, and a
    [break] happens on a page without next-page button or on page
    [maxPages]. *)
Lemma LoopTrace_exit p tr r :
  LoopTrace options p tr r ->
  (exists e, r = Throw e)
  \/ (exists q, r = Ok (LoopBreak q false) /\ p <= q <= maxPages options)
  \/ r = Ok (LoopBreak (maxPages options) true)
  \/ (r = Ok (LoopCond p) /\ maxPages options < p).
Proof.
  intros HT. on_trace HT; eauto.
  - destruct b; simpl in Hb.
    + apply Z.ltb_ge in Hb. assert (p = maxPages options) as -> by lia. auto.
    + right; left. exists p. split; [reflexivity | lia].
  - destruct IH as [He | [(q & Hq & Hr) | [Hm | (Hc & Hgt)]]]; auto.
    + right; left. exists q. split; [assumption | lia].
    + lia.
Qed.

Lemma LoopTrace_nonempty p tr r :
  LoopTrace options p tr r -> p <= maxPages options -> tr <> [].
Proof.
  intros HT. on_trace HT; intros Hp; try discriminate. lia.
Qed.

(** In a log of the loop nothing follows a call that threw, and nothing
    follows the search for a next-page button that found none. *)
Lemma LoopTrace_stops p tr r :
  LoopTrace options p tr r -> nothing_after ends_loop tr = true.
Proof.
  intros HT. on_trace HT; try reflexivity.
  pose proof (LoopTrace_nonempty _ _ _ HT ltac:(lia)) as Hne.
  destruct tr as [| ev tr]; [congruence |].
  cbn [app]. exact IH.
Qed.

Lemma throws_last_app (tr1 tr2 : list Event) (e : Error) :
  forallb quiet tr1 = true -> throws_last tr2 e -> throws_last (tr1 ++ tr2) e.
Proof.
  induction tr1 as [| ev tr1 IH]; intros Hq Ht; [exact Ht |].
  simpl in Hq. apply andb_true_iff in Hq as [Hev Hq].
  specialize (IH Hq Ht).
  cbn [app throws_last].
  destruct (tr1 ++ tr2) eqn:Eapp; [destruct IH | split; assumption].
Qed.

Lemma LoopTrace_agrees p tr r :
  LoopTrace options p tr r -> agrees tr r.
Proof.
  intros HT. on_trace HT; try (cbn; tauto).
  destruct r as [x | e]; exact IH || (apply throws_last_app; [reflexivity | exact IH]).
Qed.

Lemma LoopTrace_closes p tr r :
  LoopTrace options p tr r -> closes tr = 0%nat.
Proof.
  intros HT. on_trace HT; try reflexivity. exact IH.
Qed.

End LoopLogs.

(** ** Whole runs of [scrapeProducts] *)

Section LogFacts.

Local Open Scope list_scope.

Lemma extractions_app (tr1 tr2 : list Event) :
  extractions (tr1 ++ tr2) = (extractions tr1 + extractions tr2)%nat.
Proof. unfold extractions. now rewrite filter_app, length_app. Qed.

Lemma closes_app (tr1 tr2 : list Event) :
  closes (tr1 ++ tr2) = (closes tr1 + closes tr2)%nat.
Proof. unfold closes. now rewrite filter_app, length_app. Qed.

(** A log of commands has no extraction pass, no close, no record. *)
Lemma commands_only (tr : list Event) :
  forallb is_command tr = true ->
  extractions tr = 0%nat /\ closes tr = 0%nat
  /\ page_numbers tr = [] /\ forall options, harvest options tr = [].
Proof.
  induction tr as [| ev tr IH]; intros H; [repeat split |].
  simpl in H. apply andb_true_iff in H as [Hev H].
  destruct (IH H) as (He & Hc & Hp & Hh).
  destruct ev; try discriminate.
  unfold extractions, closes in *. simpl. repeat split; auto.
Qed.

Lemma first_failure_quiet (tr1 tr2 : list Event) :
  forallb quiet tr1 = true ->
  first_failure (tr1 ++ tr2) = first_failure tr2.
Proof.
  induction tr1 as [| ev tr1 IH]; intros H; [reflexivity |].
  simpl in H. apply andb_true_iff in H as [Hev H].
  simpl. unfold quiet in Hev.
  destruct (failure_of ev); [discriminate | now apply IH].
Qed.

Lemma first_failure_throws_last (tr post : list Event) (e : Error) :
  throws_last tr e -> first_failure (tr ++ post) = Some (e, post).
Proof.
  induction tr as [| ev tr IH]; intros H; [destruct H |].
  cbn [throws_last] in H. destruct tr as [| ev' tr].
  - simpl. now rewrite H.
  - destruct H as [Hq H]. cbn [app first_failure].
    unfold quiet in Hq. destruct (failure_of ev); [discriminate |].
    now apply IH.
Qed.

Lemma agrees_app {A B : Type} (tr1 tr2 : list Event) (x : A) (r : Outcome B) :
  agrees tr1 (Ok x) -> agrees tr2 r -> agrees (tr1 ++ tr2) r.
Proof.
  unfold agrees. intros H1 H2. destruct r as [y | e].
  - now rewrite forallb_app, H1, H2.
  - now apply throws_last_app.
Qed.

Variable options : Options.
Variable url : string.

Lemma CrawlTrace_agrees tr r : CrawlTrace options url tr r -> agrees tr r.
Proof.
  intros [e | e | tr' r' HT]; try (cbn; tauto).
  apply (agrees_app _ _ tt); [reflexivity |].
  now apply (LoopTrace_agrees options 1).
Qed.

Lemma CrawlTrace_closes tr r : CrawlTrace options url tr r -> closes tr = 0%nat.
Proof.
  intros [e | e | tr' r' HT]; try reflexivity.
  rewrite closes_app. now rewrite (LoopTrace_closes options 1 tr' r').
Qed.

Lemma CrawlTrace_extractions tr r :
  CrawlTrace options url tr r ->
  (extractions tr <= Z.to_nat (maxPages options))%nat.
Proof.
  intros [e | e | tr' r' HT]; try (cbn; lia).
  rewrite extractions_app.
  apply LoopTrace_extractions in HT.
  replace (maxPages options + 1 - 1) with (maxPages options) in HT by lia.
  exact HT.
Qed.

Lemma CrawlTrace_page_numbers tr r :
  CrawlTrace options url tr r ->
  page_numbers tr = count_from 1 (extractions tr).
Proof.
  intros [e | e | tr' r' HT]; try reflexivity.
  rewrite extractions_app. cbn [app page_numbers].
  now apply LoopTrace_page_numbers in HT.
Qed.

End LogFacts.

Section ScraperRuns.

Context {E : Env}.

Local Open Scope list_scope.

Ltac run_in H := cbn [env log products emit with_env ret] in H.

Ltac next_command H :=
  match type of H with
  | context [run_command E ?c ?w] =>
      let e := fresh "e" in
      let w' := fresh "w" in
      destruct (run_command E c w) as [[[] | e] w']; run_in H
  end.

Ltac done_with H :=
  inversion H; subst; clear H;
  eexists; cbn [log products emit with_env];
  rewrite <- ?app_assoc; cbn [app];
  split; [reflexivity |]; repeat split; cbn; tauto.

Lemma initialize_run (options : Options) (s s' : State E) (r : Outcome unit) :
  initialize options s = (r, s') ->
  exists tr,
    log s' = log s ++ tr
    /\ products s' = products s
    /\ agrees tr r
    /\ forallb is_command tr = true.
Proof.
  intros H. unfold initialize, bind, command in H. run_in H.
  next_command H; [| done_with H].
  next_command H; [| done_with H].
  next_command H; [| done_with H].
  next_command H; [| done_with H].
  next_command H; done_with H.
Qed.

Lemma crawl_trace (options : Options) (url : string) (s s' : State E)
  (r : Outcome LoopExit) :
  crawl options url s = (r, s') ->
  exists tr,
    log s' = log s ++ tr
    /\ CrawlTrace options url tr r
    /\ products s' = products s ++ harvest options tr.
Proof.
  intros H. unfold crawl, bind, command in H. run_in H.
  next_command H.
  2:{ inversion H; subst; clear H. eexists. cbn [log products emit with_env].
      split; [reflexivity |]. split; [constructor |].
      cbn. now rewrite app_nil_r. }
  next_command H.
  2:{ inversion H; subst; clear H. eexists. cbn [log products emit with_env].
      rewrite <- ?app_assoc; cbn [app].
      split; [reflexivity |]. split; [constructor |].
      cbn. now rewrite app_nil_r. }
  apply pagination_trace in H as (tr & Hlog & HT & Hprod).
  2:{ unfold loop_fuel. lia. }
  cbn [log products emit with_env] in Hlog, Hprod.
  exists ([ECommand (Goto url "networkidle0" 60000) (Ok tt);
           ECommand (WaitForSelector ".product-item" 10000) (Ok tt)] ++ tr).
  rewrite Hlog, Hprod, <- !app_assoc. cbn [app harvest].
  repeat split. now constructor.
Qed.

(** The runs of [scrapeProducts]: either [initialize] throws, and so does
    [scrapeProducts]; or the log is that of [initialize], then of the
    [try] block, then of [catch] and [finally], and the result is what the
    successful extraction passes returned. *)
Lemma scrapeProducts_trace (options : Options) (s s' : State E)
  (r : Outcome (list ProductRecord)) :
  scrapeProducts options s = (r, s') ->
  (exists tr e,
      initialize options s = (Throw e, s')
      /\ r = Throw e
      /\ log s' = log s ++ tr
      /\ throws_last tr e
      /\ forallb is_command tr = true)
  \/ (exists init tr cr s1,
        initialize options s = (Ok tt, s1)
        /\ log s' = log s ++ init ++ tr ++ epilogue cr
        /\ forallb is_command init = true
        /\ forallb quiet init = true
        /\ CrawlTrace options (buildSearchURL options) tr cr
        /\ r = Ok (harvest options tr)).
Proof.
  intros H. unfold scrapeProducts in H. unfold bind at 1 in H.
  destruct (initialize options s) as [[[] | e] s1] eqn:I.
  2:{ inversion H; subst; clear H.
      apply initialize_run in I as (tr & Hlog & _ & Hag & Hcmd).
      left. exists tr, e. repeat split; assumption. }
  apply initialize_run in I as (init & Hlog & Hprod & Hag & Hcmd).
  right.
  unfold bind at 1, new_products at 1 in H.
  unfold bind at 1, finally, catch in H. unfold bind at 1 in H.
  match type of H with
  | context [crawl ?o ?u ?st] =>
      destruct (crawl o u st) as [cr s2] eqn:C
  end.
  apply crawl_trace in C as (tr & Hlog2 & HT & Hprod2).
  cbn [log products emit with_env] in Hlog2, Hprod2.
  exists init, tr, cr, s1.
  destruct cr as [x | e];
    unfold browser_close, console_error, read_products, ret in H;
    cbn [env log products emit with_env] in H;
    inversion H; subst; clear H;
    cbn [log products emit with_env epilogue];
    rewrite Hlog2, Hlog, Hprod2, <- ?app_assoc; cbn [app];
    repeat split; assumption.
Qed.

End ScraperRuns.

(** ** The request handler and the session *)

Section HandlerRuns.

Context {E : Env}.

Local Open Scope list_scope.

Ltac run_in H := cbn [env log products emit with_env ret] in H.

Ltac answered H :=
  inversion H; subst; clear H;
  eexists; eexists; split; [reflexivity |];
  cbn [log products emit with_env];
  rewrite <- ?app_assoc; cbn [app];
  split; [reflexivity |]; split; [reflexivity |];
  cbn [json min_order_count]; try exact I.

(** Unless the body cannot be destructured, the handler answers; it
    closes the session when it answers 200 and at no other time; the
    records it sends pass the filter. *)
Lemma handler_run (req : Request) (s s' : State E) (r : Outcome Response) :
  handler req s = (r, s') ->
  (body req = None /\ r = Throw destructure_error /\ s' = s)
  \/
  exists resp tr,
    r = Ok resp
    /\ log s' = log s ++ tr
    /\ closes tr = (if status resp =? 200 then 1%nat else 0%nat)
    /\ match json resp with
       | ResultBody m items =>
           Forall (fun r => spec_passes (min_order_count m)
                              (count_of_text (orderCount r))) items
       | ErrorBody _ _ => True
       end.
Proof.
  intros H. unfold handler in H.
  destruct (negb (method req =? "POST")%string).
  { right. inversion H; subst.
    exists {| status := 405; json := ErrorBody "Method Not Allowed" None |}, [].
    rewrite app_nil_r. repeat split. }
  destruct (body req) as [fields |];
    [right | left; inversion H; repeat split].
  unfold catch, bind, chromium_executablePath, command, evaluate,
    browser_close, date_now, console_error in H.
  run_in H.
  destruct (executablePath E (env s)) as [[path | e] w0]; run_in H;
    [| answered H].
  destruct (run_command E (Launch (ChromiumConfig path)) w0)
    as [[[] | e] w1]; run_in H; [| answered H].
  destruct (run_command E NewPage w1) as [[[] | e] w2]; run_in H;
    [| answered H].
  match type of H with
  | context [run_command E ?c w2] =>
      destruct (run_command E c w2) as [[[] | e] w3]; run_in H; [| answered H]
  end.
  destruct (evaluate_items E w3) as [[els | e] w4]; run_in H; answered H.
  apply handler_products_pass.
Qed.

End HandlerRuns.

(** ** Whole runs: filtering, pagination, failure *)

Lemma page_numbers_app (tr1 tr2 : list Event) :
  page_numbers (tr1 ++ tr2)%list = (page_numbers tr1 ++ page_numbers tr2)%list.
Proof.
  induction tr1 as [| ev tr1 IH]; [reflexivity |].
  destruct ev; simpl; now rewrite IH.
Qed.

(** C1. A record passes the filter exactly when the threshold is absent or
    the order count derived from the record (the number [count_of_text]
    computes from its order-count text, as the code does) is at least the
    threshold, in the class's filter and in the handler's; a page's output
    holds the records of the page's elements that pass, and nothing else;
    every record that [scrapeProducts] returns or the handler sends
    passes; and for a text whose digits write an integer of at most 2^53
    the test is the comparison of that integer with the threshold. *)
Theorem filter_engine_correct :
  (forall (options : Options) (product : ProductRecord),
      passes options product = true
      <-> spec_passes (minOrderCount options)
            (count_of_text (orderCount product)))
  /\ (forall (threshold : option Z) (el : Element) (now : string),
        (handler_item threshold el now = Some (product_of el now)
         /\ spec_passes threshold
              (count_of_text (orderCount (product_of el now))))
        \/ (handler_item threshold el now = None
            /\ ~ spec_passes threshold
                  (count_of_text (orderCount (product_of el now)))))
  /\ (forall (options : Options) (els : list (Element * string))
        (r : ProductRecord),
        In r (pageProducts options els)
        <-> (exists el now, In (el, now) els /\ r = product_of el now)
            /\ spec_passes (minOrderCount options)
                 (count_of_text (orderCount r)))
  /\ (forall (options : Options) (els : list (Element * string)),
        handler_products (minOrderCount options) els
        = pageProducts options els)
  /\ (forall (E : Env) (options : Options) (s : State E)
        (ps : list ProductRecord),
        fst (scrapeProducts options s) = Ok ps ->
        Forall (fun r => spec_passes (minOrderCount options)
                           (count_of_text (orderCount r))) ps)
  /\ (forall (E : Env) (req : Request) (s : State E) (st : Z)
        (m : Metadata) (items : list ProductRecord),
        fst (handler req s) = Ok {| status := st; json := ResultBody m items |} ->
        Forall (fun r => spec_passes (min_order_count m)
                           (count_of_text (orderCount r))) items)
  /\ (forall (threshold : Z) (text : string),
        spec_orderCount text <= 2 ^ 53 ->
        (spec_passes (Some threshold) (count_of_text text)
         <-> threshold <= spec_orderCount text)).
Proof.
  split; [exact passes_iff |].
  split; [exact handler_item_spec |].
  split; [exact pageProducts_In |].
  split; [exact handler_products_pageProducts |].
  split; [| split].
  2:{ intros E req s st m items H.
      destruct (handler req s) as [r s'] eqn:R. cbn [fst] in H. subst r.
      apply handler_run in R
        as [(_ & Hr & _) | (resp & tr & Hr & _ & _ & Hitems)];
        [discriminate |].
      inversion Hr; subst resp. exact Hitems. }
  2:{ intros threshold text Hb. rewrite (count_of_text_exact _ Hb).
      reflexivity. }
  intros E options s ps H.
  destruct (scrapeProducts options s) as [r s'] eqn:R. simpl in H. subst r.
  apply scrapeProducts_trace in R
    as [(tr & e & _ & Hr & _) | (init & tr & cr & s1 & _ & _ & _ & _ & _ & Hr)].
  - discriminate.
  - inversion Hr; subst. apply harvest_passes.
Qed.

Section WholeRuns.

Context {E : Env}.

Local Open Scope list_scope.

(** The log of a whole run of [scrapeProducts] has at most [maxPages]
    extraction passes, numbered from 1. *)
Lemma scrapeProducts_extractions (options : Options) (s : State E) :
  exists tr,
    log (snd (scrapeProducts options s)) = log s ++ tr
    /\ (extractions tr <= Z.to_nat (maxPages options))%nat
    /\ page_numbers tr = count_from 1 (extractions tr).
Proof.
  destruct (scrapeProducts options s) as [r s'] eqn:R. cbn [snd].
  apply scrapeProducts_trace in R
    as [(tr & e & _ & _ & Hlog & _ & Hcmd)
       | (init & tr & cr & s1 & _ & Hlog & Hcmd & _ & HT & _)].
  - exists tr. destruct (commands_only tr Hcmd) as (He & _ & Hp & _).
    rewrite He, Hp. repeat split; [assumption | lia].
  - exists (init ++ tr ++ epilogue cr).
    destruct (commands_only init Hcmd) as (He & _ & Hp & _).
    assert (extractions (epilogue cr) = 0%nat /\ page_numbers (epilogue cr) = [])
      as [Hee Hep] by (destruct cr; split; reflexivity).
    rewrite !extractions_app, !page_numbers_app, He, Hp, Hee, Hep.
    rewrite Nat.add_0_r, app_nil_r. cbn [app Nat.add].
    split; [assumption |]. split.
    + now apply CrawlTrace_extractions in HT.
    + now apply CrawlTrace_page_numbers in HT.
Qed.

(** C2. With [maxPages = N >= 1], a run makes at most [N] extraction
    passes and the page number goes 1, 2, ... without exceeding [N]; the
    loop always ends, and it ends by an exception, on a page without
    next-page button, or on page [N]; nothing is done in the loop after a
    call that threw or after a next-page button was not found. *)
Theorem pagination_bounded (options : Options) (s : State E) :
  1 <= maxPages options ->
  (exists tr,
      log (snd (scrapeProducts options s)) = log s ++ tr
      /\ (extractions tr <= Z.to_nat (maxPages options))%nat
      /\ page_numbers tr = count_from 1 (extractions tr)
      /\ forall q, In q (page_numbers tr) -> 1 <= q <= maxPages options)
  /\ (exists tr,
        log (snd (pagination options (loop_fuel options) 1 s)) = log s ++ tr
        /\ (extractions tr <= Z.to_nat (maxPages options))%nat
        /\ page_numbers tr = count_from 1 (extractions tr)
        /\ (forall q, In q (page_numbers tr) -> 1 <= q <= maxPages options)
        /\ nothing_after ends_loop tr = true
        /\ ((exists e, fst (pagination options (loop_fuel options) 1 s) = Throw e)
            \/ (exists q,
                   fst (pagination options (loop_fuel options) 1 s)
                   = Ok (LoopBreak q false)
                   /\ 1 <= q <= maxPages options)
            \/ fst (pagination options (loop_fuel options) 1 s)
               = Ok (LoopBreak (maxPages options) true))).
Proof.
  intros HN.
  assert (forall tr, (extractions tr <= Z.to_nat (maxPages options))%nat ->
                     page_numbers tr = count_from 1 (extractions tr) ->
                     forall q, In q (page_numbers tr) -> 1 <= q <= maxPages options)
    as Hrange.
  { intros tr Hle Hpn q Hq. rewrite Hpn in Hq.
    apply count_from_bound in Hq. lia. }
  split.
  - destruct (scrapeProducts_extractions options s) as (tr & Hlog & Hle & Hpn).
    exists tr. repeat split; try assumption.
    + now apply (Hrange tr Hle Hpn) in H.
    + now apply (Hrange tr Hle Hpn) in H.
  - destruct (pagination options (loop_fuel options) 1 s) as [r s'] eqn:R.
    cbn [fst snd].
    apply pagination_trace in R as (tr & Hlog & HT & _).
    2:{ unfold loop_fuel. lia. }
    exists tr.
    pose proof (LoopTrace_extractions _ _ _ _ HT) as Hle.
    replace (maxPages options + 1 - 1) with (maxPages options) in Hle by lia.
    pose proof (LoopTrace_page_numbers _ _ _ _ HT) as Hpn.
    split; [assumption |]. split; [assumption |]. split; [assumption |].
    split; [exact (Hrange tr Hle Hpn) |].
    split; [exact (LoopTrace_stops _ _ _ _ HT) |].
    destruct (LoopTrace_exit _ _ _ _ HT) as [He | [Hq | [Hm | (_ & Hgt)]]];
      auto; lia.
Qed.

(** Once [initialize] has succeeded the session is closed exactly once,
    whatever happens in the crawl. *)
Lemma scrapeProducts_closes_once (options : Options) (s : State E) :
  fst (initialize options s) = Ok tt ->
  exists tr,
    log (snd (scrapeProducts options s)) = log s ++ tr
    /\ closes tr = 1%nat.
Proof.
  intros Hinit.
  destruct (scrapeProducts options s) as [r s'] eqn:R. cbn [snd].
  apply scrapeProducts_trace in R
    as [(tr & e & Hi & _) | (init & tr & cr & s1 & _ & Hlog & Hcmd & _ & HT & _)].
  - rewrite Hi in Hinit. discriminate.
  - exists (init ++ tr ++ epilogue cr). split; [assumption |].
    destruct (commands_only init Hcmd) as (_ & Hc & _).
    rewrite !closes_app, Hc, (CrawlTrace_closes _ _ _ _ HT).
    destruct cr; reflexivity.
Qed.

(** C3. Once the session is set up, [scrapeProducts] returns normally
    whatever call of the crawl throws, and what it returns is what the
    extraction passes that succeeded had returned, in order; after the
    first call that throws, the only things done are the logging of the
    error and the closing of the session. *)
Theorem scrapeProducts_partial_results (options : Options) (s : State E) :
  fst (initialize options s) = Ok tt ->
  exists tr,
    log (snd (scrapeProducts options s)) = log s ++ tr
    /\ fst (scrapeProducts options s) = Ok (harvest options tr)
    /\ forall e post,
         first_failure tr = Some (e, post) ->
         post = [EConsoleError e; EClose].
Proof.
  intros Hinit.
  destruct (scrapeProducts options s) as [r s'] eqn:R. cbn [fst snd].
  apply scrapeProducts_trace in R
    as [(tr & e & Hi & _)
       | (init & tr & cr & s1 & _ & Hlog & Hcmd & Hq & HT & Hr)].
  { rewrite Hi in Hinit. discriminate. }
  exists (init ++ tr ++ epilogue cr).
  destruct (commands_only init Hcmd) as (_ & _ & _ & Hh).
  assert (harvest options (init ++ tr ++ epilogue cr) = harvest options tr) as Hharv.
  { rewrite !harvest_app, Hh. destruct cr; cbn; now rewrite app_nil_r. }
  rewrite Hharv.
  split; [assumption |]. split; [assumption |].
  intros e post Hff.
  rewrite (first_failure_quiet _ _ Hq) in Hff.
  pose proof (CrawlTrace_agrees _ _ _ _ HT) as Hag.
  destruct cr as [x | e']; cbn [agrees epilogue] in *.
  - rewrite first_failure_quiet in Hff by assumption. discriminate.
  - rewrite (first_failure_throws_last _ _ _ Hag) in Hff.
    now inversion Hff.
Qed.

End WholeRuns.

(** The request listener aborts images, stylesheets and fonts and lets
    every other resource type through. *)
Lemma request_aborted_iff (resourceType : string) :
  request_aborted resourceType = true
  <-> resourceType = "image" \/ resourceType = "stylesheet"
      \/ resourceType = "font".
Proof.
  unfold request_aborted, blockedResources. cbn [existsb].
  rewrite !orb_true_iff, !String.eqb_eq. intuition discriminate.
Qed.

(** ** The session on the error paths *)

(** C4 fails in the handler: when [page.goto] throws, the browser has been
    launched, the handler answers 500 and [browser.close()] is never
    called.  The class closes in a [finally], but its [initialize] runs
    before the [try]: when [newPage] throws there, the launched browser is
    not closed either. *)
Theorem handler_leaks_session_on_error :
  fst (handler (Scripted.post Scripted.no_body)
         (Scripted.start Scripted.three_pages (Some 3%nat)))
  = Ok {| status := 500;
          json := ErrorBody "Scraping failed" (Some "Navigation timeout") |}
  /\ launches (log (snd (handler (Scripted.post Scripted.no_body)
                           (Scripted.start Scripted.three_pages (Some 3%nat)))))
     = 1%nat
  /\ closes (log (snd (handler (Scripted.post Scripted.no_body)
                         (Scripted.start Scripted.three_pages (Some 3%nat)))))
     = 0%nat
  /\ Scripted.live (env (snd (handler (Scripted.post Scripted.no_body)
                                (Scripted.start Scripted.three_pages (Some 3%nat)))))
     = 1%nat
  /\ fst (scrapeProducts (Scripted.options None 3)
            (Scripted.start Scripted.three_pages (Some 1%nat)))
     = Throw "Navigation timeout"
  /\ closes (log (snd (scrapeProducts (Scripted.options None 3)
                         (Scripted.start Scripted.three_pages (Some 1%nat)))))
     = 0%nat
  /\ Scripted.live (env (snd (scrapeProducts (Scripted.options None 3)
                                (Scripted.start Scripted.three_pages (Some 1%nat)))))
     = 1%nat.
Proof.
  repeat split.
Qed.

(** ** Runs on the scripted site *)

(** One page with order counts 10, 60 and 200 and a threshold of 50: the
    records with 60 and 200 are returned. *)
Example scenario_threshold :
  fst (scrapeProducts (Scripted.options (Some 50) 1)
         (Scripted.start Scripted.one_page None))
  = Ok (map (fun p => product_of (fst p) (snd p))
          [Scripted.item "2" "60 orders"; Scripted.item "3" "200 orders"]).
Proof. reflexivity. Qed.

(** Three pages, the last without next-page button, [maxPages = 3]: three
    pages are visited and the loop ends on the missing button. *)
Example scenario_last_page :
  page_numbers
    (log (snd (scrapeProducts (Scripted.options None 3)
                 (Scripted.start Scripted.three_pages None))))
  = [1; 2; 3]
  /\ fst (pagination (Scripted.options None 3)
            (loop_fuel (Scripted.options None 3)) 1
            (Scripted.start Scripted.three_pages None))
     = Ok (LoopBreak 3 false).
Proof. split; reflexivity. Qed.

(** The click that leads to page 2 throws: the records of page 1 are
    returned and the session is closed. *)
Example scenario_navigation_fails :
  fst (scrapeProducts (Scripted.options None 3)
         (Scripted.start Scripted.three_pages (Some 9%nat)))
  = Ok (map (fun p => product_of (fst p) (snd p))
          [Scripted.item "1" "10 orders"; Scripted.item "2" "60 orders"])
  /\ closes (log (snd (scrapeProducts (Scripted.options None 3)
                         (Scripted.start Scripted.three_pages (Some 9%nat)))))
     = 1%nat
  /\ Scripted.live (env (snd (scrapeProducts (Scripted.options None 3)
                                (Scripted.start Scripted.three_pages (Some 9%nat)))))
     = 0%nat.
Proof. repeat split. Qed.

(** [pagination_bounded] on the three-page site with [maxPages = 3]. *)
Lemma pagination_bounded_witness :
  1 <= maxPages (Scripted.options None 3)
  /\ (exists tr,
         log (snd (scrapeProducts (Scripted.options None 3)
                     (Scripted.start Scripted.three_pages None)))
         = (log (Scripted.start Scripted.three_pages None) ++ tr)%list
         /\ (extractions tr <= Z.to_nat (maxPages (Scripted.options None 3)))%nat
         /\ page_numbers tr = count_from 1 (extractions tr)
         /\ forall q, In q (page_numbers tr) ->
                      1 <= q <= maxPages (Scripted.options None 3)).
Proof.
  split; [cbn; lia |].
  apply (@pagination_bounded Scripted.browser (Scripted.options None 3)
           (Scripted.start Scripted.three_pages None)).
  cbn; lia.
Defined.

(** [scrapeProducts_partial_results] on the three-page site when the
    click that leads to page 2 throws. *)
Lemma scrapeProducts_partial_results_witness :
  fst (initialize (Scripted.options None 3)
         (Scripted.start Scripted.three_pages (Some 9%nat))) = Ok tt
  /\ exists tr,
       log (snd (scrapeProducts (Scripted.options None 3)
                   (Scripted.start Scripted.three_pages (Some 9%nat))))
       = (log (Scripted.start Scripted.three_pages (Some 9%nat)) ++ tr)%list
       /\ fst (scrapeProducts (Scripted.options None 3)
                 (Scripted.start Scripted.three_pages (Some 9%nat)))
          = Ok (harvest (Scripted.options None 3) tr)
       /\ forall e post,
            first_failure tr = Some (e, post) ->
            post = [EConsoleError e; EClose].
Proof.
  split; [reflexivity |].
  apply (@scrapeProducts_partial_results Scripted.browser
           (Scripted.options None 3)
           (Scripted.start Scripted.three_pages (Some 9%nat))).
  reflexivity.
Defined.

(* ===================================================================== *)
(** * Further properties of the code *)
(* ===================================================================== *)

(** ** The request handler *)

Section HandlerAnswers.

Context {E : Env}.

Local Open Scope list_scope.

Ltac run_in H := cbn [env log products emit with_env ret] in H.

(** Every path through the handler after the method test, each with the
    equation of its result. *)
Ltac handler_paths H :=
  unfold catch, bind, chromium_executablePath, command, evaluate,
    browser_close, date_now, console_error in H;
  run_in H;
  match type of H with
  | context [executablePath E ?w] =>
      destruct (executablePath E w) as [[?path | ?e] ?w0]; run_in H
  end;
  [ match type of H with
    | context [run_command E (Launch ?c) ?w] =>
        destruct (run_command E (Launch c) w) as [[[] | ?e] ?w1]; run_in H
    end;
    [ match type of H with
      | context [run_command E NewPage ?w] =>
          destruct (run_command E NewPage w) as [[[] | ?e] ?w2]; run_in H
      end;
      [ match type of H with
        | context [run_command E (Goto ?u ?i ?t) ?w] =>
            destruct (run_command E (Goto u i t) w) as [[[] | ?e] ?w3];
            run_in H
        end;
        [ match type of H with
          | context [evaluate_items E ?w] =>
              destruct (evaluate_items E w) as [[?els | ?e] ?w4]; run_in H
          end
        | ]
      | ]
    | ]
  | ];
  inversion H; subst; clear H;
  cbn [fst snd log products emit with_env env status json];
  rewrite <- ?app_assoc; cbn [app].

(** A request that is not a POST is answered 405 and nothing is touched:
    no browser is launched and the state is the one the handler found. *)
Theorem handler_rejects_other_methods (req : Request) (s : State E) :
  method req <> "POST" ->
  handler req s
  = (Ok {| status := 405; json := ErrorBody "Method Not Allowed" None |}, s).
Proof.
  intros Hm. unfold handler.
  destruct (String.eqb_spec (method req) "POST") as [Heq | _];
    [contradiction | reflexivity].
Qed.

(** What a call of the handler comes to.  On a POST whose body is
    [undefined] or [null] it throws a [TypeError] before anything is
    launched, and sends no answer.  On every other request it answers:
    405, or 200 after a run in which no call threw and the session was
    closed, or 500 after the first call that threw, with the message of
    the error thrown ('Unknown error' when the value thrown is not an
    [Error]), after which it only logs the error. *)
Theorem handler_outcomes (req : Request) (s : State E) :
  ((method req = "POST" /\ body req = None
    /\ handler req s = (Throw destructure_error, s))
   \/
   ((method req <> "POST" \/ body req <> None)
    /\ exists resp tr,
       fst (handler req s) = Ok resp
       /\ log (snd (handler req s)) = log s ++ tr
       /\ ((resp = {| status := 405; json := ErrorBody "Method Not Allowed" None |}
            /\ tr = [])
           \/ (status resp = 200 /\ first_failure tr = None /\ closes tr = 1%nat)
           \/ (exists e,
                  resp = {| status := 500;
                            json := ErrorBody "Scraping failed"
                                      (Some (details_of e)) |}
                  /\ first_failure tr = Some (e, [EConsoleError e])
                  /\ closes tr = 0%nat))))
  /\ details_of (ErrorObject "Navigation timeout") = "Navigation timeout"
  /\ details_of (Thrown "Navigation timeout") = "Unknown error".
Proof.
  split; [| split; reflexivity].
  destruct (handler req s) as [r s'] eqn:H.
  unfold handler in H.
  destruct (String.eqb_spec (method req) "POST") as [Hm | Hm]; cbn [negb] in H.
  2:{ right. split; [now left |].
      inversion H; subst. do 2 eexists. cbn [fst snd].
      split; [reflexivity |]. split; [symmetry; apply app_nil_r |].
      left. split; reflexivity. }
  destruct (body req) as [fields |] eqn:Hb.
  2:{ left. inversion H; subst. repeat split; assumption. }
  right. split; [right; discriminate |].
  handler_paths H;
    do 2 eexists; (split; [reflexivity |]); (split; [reflexivity |]);
    first [ right; left; repeat split; reflexivity
          | right; right; eexists; repeat split; reflexivity ].
Qed.

(** A 200 answer comes from exactly one run: executable path, launch, new
    page, navigation to the search URL of the request (defaults applied),
    one extraction pass, close; and it carries the filtered records of
    that pass, their number, and the request's values. *)
Theorem handler_success (req : Request) (s : State E) (resp : Response) :
  fst (handler req s) = Ok resp ->
  status resp = 200 ->
  exists fields path els,
    body req = Some fields
    /\ log (snd (handler req s))
       = log s
         ++ handler_log path
              (searchURL_of (dflt (body_searchTerm fields) "smartphone")
                 (dflt (body_minPrice fields) (Some 100))
                 (dflt (body_maxPrice fields) (Some 500)))
              els
    /\ json resp
       = ResultBody
           {| search_term := dflt (body_searchTerm fields) "smartphone";
              min_price := dflt (body_minPrice fields) (Some 100);
              max_price := dflt (body_maxPrice fields) (Some 500);
              min_order_count :=
                dflt (body_minOrderCount fields) (Some 50);
              total_products :=
                Z.of_nat
                  (length
                     (handler_products
                        (dflt (body_minOrderCount fields) (Some 50)) els));
              report_scraped_at := now E (env (snd (handler req s))) |}
           (handler_products
              (dflt (body_minOrderCount fields) (Some 50)) els).
Proof.
  destruct (handler req s) as [r s'] eqn:H. cbn [fst snd].
  intros Hr Hst. subst r.
  unfold handler in H.
  destruct (negb (method req =? "POST")%string).
  { inversion H; subst. discriminate. }
  destruct (body req) as [fields |]; [| discriminate].
  exists fields.
  handler_paths H; try discriminate.
  do 2 eexists. repeat split; reflexivity.
Qed.

(** [maxPages] is read from the request and never used: the handler does
    the same whatever its value, and makes at most one extraction pass. *)
Theorem handler_ignores_maxPages (m : string) (term : option string)
  (lo hi threshold : option (option Z)) (pages pages' : option Z)
  (s : State E) :
  handler (mkRequest m (Some (mkBody term lo hi threshold pages))) s
  = handler (mkRequest m (Some (mkBody term lo hi threshold pages'))) s
  /\ exists tr,
       log (snd (handler (mkRequest m (Some (mkBody term lo hi threshold pages))) s))
       = log s ++ tr
       /\ (extractions tr <= 1)%nat.
Proof.
  split; [reflexivity |].
  destruct (handler _ s) as [r s'] eqn:H.
  unfold handler in H.
  destruct (negb (method _ =? "POST")%string).
  { inversion H; subst. exists []. cbn [snd].
    split; [symmetry; apply app_nil_r | cbn; lia]. }
  cbn [body] in H.
  handler_paths H; eexists; (split; [reflexivity |]); cbn; lia.
Qed.

(** Every navigation of the handler goes to the search URL built from the
    request's term and price bounds, defaults applied. *)
Lemma handler_goto_urls (m : string) (fields : RequestBody) (s : State E) :
  exists tr,
    log (snd (handler (mkRequest m (Some fields)) s)) = log s ++ tr
    /\ Forall
         (fun u =>
            u = searchURL_of (dflt (body_searchTerm fields) "smartphone")
                  (dflt (body_minPrice fields) (Some 100))
                  (dflt (body_maxPrice fields) (Some 500)))
         (goto_urls tr).
Proof.
  destruct (handler _ s) as [r s'] eqn:H.
  unfold handler in H.
  destruct (negb (method _ =? "POST")%string).
  { inversion H; subst. exists []. cbn [snd].
    split; [symmetry; apply app_nil_r | constructor]. }
  cbn [body] in H.
  handler_paths H; eexists; (split; [reflexivity |]); cbn;
    repeat constructor.
Qed.

(** Price bounds the request leaves out default to 100 and 500 and are
    sent; bounds given as [null] are not defaulted and are not sent. *)
Theorem handler_default_price_bounds (m : string) (term : string)
  (threshold : option (option Z)) (pages : option Z) (s : State E) :
  (exists tr,
      log (snd (handler (mkRequest m
                           (Some (mkBody (Some term) None None threshold pages))) s))
      = log s ++ tr
      /\ Forall
           (fun u =>
              Url.url_params u
              = [("SearchText", Url.encodeURIComponent term);
                 ("minPrice", "100"); ("maxPrice", "500")])
           (goto_urls tr))
  /\ (exists tr,
        log (snd (handler (mkRequest m
                             (Some (mkBody (Some term) (Some None) (Some None)
                                      threshold pages))) s))
        = log s ++ tr
        /\ Forall
             (fun u =>
                Url.url_params u
                = [("SearchText", Url.encodeURIComponent term)])
             (goto_urls tr)).
Proof.
  split.
  - destruct (handler_goto_urls m
                (mkBody (Some term) None None threshold pages) s)
      as (tr & Hlog & Hall).
    exists tr. split; [exact Hlog |].
    eapply Forall_impl; [| exact Hall].
    intros u ->. cbn [body body_searchTerm body_minPrice body_maxPrice dflt].
    now rewrite url_params_searchURL.
  - destruct (handler_goto_urls m
                (mkBody (Some term) (Some None) (Some None) threshold pages) s)
      as (tr & Hlog & Hall).
    exists tr. split; [exact Hlog |].
    eapply Forall_impl; [| exact Hall].
    intros u ->. cbn [body body_searchTerm body_minPrice body_maxPrice dflt].
    now rewrite url_params_searchURL.
Qed.

End HandlerAnswers.

(** ** The filter *)

Lemma filter_all {A : Type} (p : A -> bool) (l : list A) :
  (forall a, In a l -> p a = true) -> filter p l = l.
Proof.
  induction l as [| a l IH]; intros H; [reflexivity |].
  simpl. rewrite (H a (or_introl eq_refl)). f_equal.
  apply IH. intros b Hb. apply H. now right.
Qed.

Lemma at_least_le (x : JsNum) (m m' : Z) :
  m <= m' -> at_least x m' -> at_least x m.
Proof. destruct x as [| n | b]; simpl; [tauto | lia | tauto]. Qed.

(** A threshold that is [null], zero or negative filters nothing out:
    every element of the page gives a record, in document order, in both
    variants. *)
Theorem threshold_absent_or_nonpositive (options : Options)
  (els : list (Element * string)) :
  match minOrderCount options with Some m => m <= 0 | None => True end ->
  pageProducts options els = map (fun '(el, now) => product_of el now) els
  /\ handler_products (minOrderCount options) els
     = map (fun '(el, now) => product_of el now) els.
Proof.
  intros Hm.
  assert (pageProducts options els
          = map (fun '(el, now) => product_of el now) els) as Hall.
  { unfold pageProducts. apply filter_all. intros r _.
    apply passes_iff. unfold spec_passes.
    destruct (minOrderCount options) as [m |]; [| exact I].
    exact (at_least_le _ _ _ Hm (count_of_text_nonneg (orderCount r))). }
  split; [exact Hall |].
  now rewrite handler_products_pageProducts.
Qed.

Lemma threshold_absent_or_nonpositive_witness :
  match minOrderCount (Scripted.options (Some (-3)) 1) with
  | Some m => m <= 0
  | None => True
  end
  /\ pageProducts (Scripted.options (Some (-3)) 1)
       [Scripted.item "1" "10 orders"; Scripted.item "2" "no orders yet"]
     = map (fun '(el, now) => product_of el now)
         [Scripted.item "1" "10 orders"; Scripted.item "2" "no orders yet"].
Proof.
  split; [cbn; lia |].
  apply (threshold_absent_or_nonpositive (Scripted.options (Some (-3)) 1)).
  cbn; lia.
Defined.

(** Raising the threshold only removes records: what passes the higher
    threshold passes the lower one. *)
Theorem threshold_monotone (options options' : Options) (m m' : Z)
  (els : list (Element * string)) (r : ProductRecord) :
  minOrderCount options = Some m ->
  minOrderCount options' = Some m' ->
  m <= m' ->
  In r (pageProducts options' els) ->
  In r (pageProducts options els).
Proof.
  intros Hm Hm' Hle Hin.
  apply pageProducts_In in Hin as [Hel Hpass].
  apply pageProducts_In. split; [exact Hel |].
  rewrite Hm' in Hpass. rewrite Hm. unfold spec_passes in *.
  exact (at_least_le _ _ _ Hle Hpass).
Qed.

Lemma threshold_monotone_witness :
  minOrderCount (Scripted.options (Some 50) 1) = Some 50
  /\ minOrderCount (Scripted.options (Some 100) 1) = Some 100
  /\ 50 <= 100
  /\ In (product_of (fst (Scripted.item "3" "200 orders")) "")
       (pageProducts (Scripted.options (Some 100) 1)
          [(fst (Scripted.item "3" "200 orders"), "")])
  /\ In (product_of (fst (Scripted.item "3" "200 orders")) "")
       (pageProducts (Scripted.options (Some 50) 1)
          [(fst (Scripted.item "3" "200 orders"), "")]).
Proof.
  assert (In (product_of (fst (Scripted.item "3" "200 orders")) "")
            (pageProducts (Scripted.options (Some 100) 1)
               [(fst (Scripted.item "3" "200 orders"), "")])) as Hin.
  { left. reflexivity. }
  split; [reflexivity |]. split; [reflexivity |]. split; [lia |].
  split; [exact Hin |].
  apply (threshold_monotone (Scripted.options (Some 50) 1)
           (Scripted.options (Some 100) 1) 50 100
           [(fst (Scripted.item "3" "200 orders"), "")]
           (product_of (fst (Scripted.item "3" "200 orders")) ""));
    [reflexivity | reflexivity | lia | exact Hin].
Defined.

(** ** Extraction *)

Lemma drop_ws_blank (fwd : bool) (l : list ascii) :
  forallb ws1 l = true -> drop_ws fwd l = [].
Proof.
  induction l as [| a l IH]; intros H; [reflexivity |].
  simpl in H. apply andb_true_iff in H as [Ha Hl].
  simpl. rewrite Ha. now apply IH.
Qed.

Lemma trim_blank (t : string) :
  forallb ws1 (chars t) = true -> trim t = "".
Proof.
  intros H. unfold trim, trimEnd, trimStart.
  rewrite (drop_ws_blank true _ H). reflexivity.
Qed.

(** The sentinel stands for a missing element only.  A child element that
    is present with a blank text gives an empty field, and a blank
    order-count text gives the raw text '' (count 0), not '0'; an empty
    [data-product-id] attribute, on the contrary, gives 'N/A'. *)
Theorem blank_text_is_not_the_sentinel (t : string)
  (e1 e2 e3 e4 e5 e6 : option string) (now : string) :
  forallb ws1 (chars t) = true ->
  title (product_of (mkElement e1 (Some t) e3 e4 e5 e6) now) = ""
  /\ price (product_of (mkElement e1 e2 (Some t) e4 e5 e6) now) = ""
  /\ orderCount (product_of (mkElement e1 e2 e3 (Some t) e5 e6) now) = ""
  /\ count_of_text
       (orderCount (product_of (mkElement e1 e2 e3 (Some t) e5 e6) now))
     = Num 0
  /\ rating (product_of (mkElement e1 e2 e3 e4 (Some t) e6) now) = ""
  /\ id (product_of (mkElement (Some "") e2 e3 e4 e5 e6) now) = "N/A".
Proof.
  intros H. unfold product_of, text_or. cbn.
  rewrite (trim_blank t H). repeat split.
Qed.

Lemma blank_text_is_not_the_sentinel_witness :
  forallb ws1 (chars "  ") = true
  /\ title (product_of (mkElement None (Some "  ") None None None None) "") = "".
Proof.
  split; [reflexivity |].
  apply (blank_text_is_not_the_sentinel "  " None None None None None None "").
  reflexivity.
Defined.

(** ** The derived order count *)

Lemma fold_digits_shift (l : list ascii) :
  forall acc,
    fold_left (fun a c => a * 10 + digit_value c) l acc
    = acc * 10 ^ Z.of_nat (length l)
      + fold_left (fun a c => a * 10 + digit_value c) l 0.
Proof.
  induction l as [| c l IH]; intros acc.
  - simpl. lia.
  - cbn [fold_left length]. rewrite (IH (acc * 10 + digit_value c)).
    rewrite (IH (0 * 10 + digit_value c)).
    rewrite Nat2Z.inj_succ, Z.pow_succ_r by lia. ring.
Qed.

Lemma spec_orderCount_digits (text : string) :
  spec_orderCount text = digits_value (filter is_digit (chars text)).
Proof.
  unfold spec_orderCount.
  destruct (filter is_digit (chars text)); reflexivity.
Qed.

Lemma fold_digits_bound (l : list ascii) :
  forallb is_digit l = true ->
  forall acc, 0 <= acc ->
  fold_left (fun a c => a * 10 + digit_value c) l acc
  < (acc + 1) * 10 ^ Z.of_nat (length l).
Proof.
  induction l as [| c l IH]; intros H acc Hacc.
  - simpl. lia.
  - simpl in H. apply andb_true_iff in H as [Hc Hl].
    apply is_digit_range in Hc.
    cbn [fold_left length].
    rewrite Nat2Z.inj_succ, Z.pow_succ_r by lia.
    assert (0 <= acc * 10 + digit_value c) as Hacc'
      by (unfold digit_value; lia).
    specialize (IH Hl _ Hacc').
    assert (0 < 10 ^ Z.of_nat (length l)) as Hp
      by (apply Z.pow_pos_nonneg; lia).
    unfold digit_value in *. nia.
Qed.

(** A text with at most 15 digits writes an integer below 2^53. *)
Lemma few_digits_exact (text : string) :
  (length (filter is_digit (chars text)) <= 15)%nat ->
  spec_orderCount text <= 2 ^ 53.
Proof.
  intros H. rewrite spec_orderCount_digits.
  pose proof (fold_digits_bound _ (filter_all_digits (chars text)) 0
                (Z.le_refl 0)) as Hb.
  fold (digits_value (filter is_digit (chars text))) in Hb.
  assert (10 ^ Z.of_nat (length (filter is_digit (chars text))) <= 10 ^ 15)
    as Hp by (apply Z.pow_le_mono_r; lia).
  assert (10 ^ 15 <= 2 ^ 53) as Hc by (vm_compute; discriminate).
  lia.
Qed.

Lemma spec_orderCount_append (a b : string) :
  spec_orderCount (a ++ b)
  = spec_orderCount a * 10 ^ Z.of_nat (length (filter is_digit (chars b)))
    + spec_orderCount b.
Proof.
  rewrite !spec_orderCount_digits.
  rewrite chars_append, filter_app. unfold digits_value.
  rewrite fold_left_app. apply fold_digits_shift.
Qed.

(** The count reads all the digits of a text as one number, whatever
    stands between them: when [a ++ b] has at most 15 digits, so that the
    numbers involved are exact, the count of [a ++ b] is the count of [a]
    shifted by the number of digits of [b], plus the count of [b].  A sign
    or a decimal point is dropped like any other character. *)
Theorem count_of_concatenation (a b : string) :
  (length (filter is_digit (chars (a ++ b))) <= 15)%nat ->
  exists x y : Z,
    count_of_text a = Num x
    /\ count_of_text b = Num y
    /\ count_of_text (a ++ b)
       = Num (x * 10 ^ Z.of_nat (length (filter is_digit (chars b))) + y).
Proof.
  intros H.
  assert (length (filter is_digit (chars a)) <= 15
          /\ length (filter is_digit (chars b)) <= 15)%nat as [Ha Hb].
  { rewrite chars_append, filter_app, length_app in H. lia. }
  exists (spec_orderCount a), (spec_orderCount b).
  rewrite <- spec_orderCount_append.
  repeat split; apply count_of_text_exact, few_digits_exact; assumption.
Qed.

Lemma count_of_concatenation_witness :
  (length (filter is_digit (chars ("1,2" ++ "34 orders"))) <= 15)%nat
  /\ exists x y : Z,
       count_of_text "1,2" = Num x
       /\ count_of_text "34 orders" = Num y
       /\ count_of_text ("1,2" ++ "34 orders")
          = Num (x * 10 ^ Z.of_nat
                             (length (filter is_digit (chars "34 orders")))
                 + y).
Proof.
  split; [vm_compute; lia |].
  apply (count_of_concatenation "1,2" "34 orders"). vm_compute. lia.
Defined.

(** ** The search URL *)

Section UrlFacts.

Import Url.
Local Open Scope list_scope.

Lemma uint_digits (d : Decimal.uint) :
  forallb is_digit (chars (NilEmpty.string_of_uint d)) = true.
Proof.
  induction d; simpl; trivial.
Qed.

(** Horner's rule on the characters of a decimal numeral. *)
Lemma uint_value (d : Decimal.uint) :
  forall acc,
    fold_left (fun a c => a * 10 + digit_value c)
      (chars (NilEmpty.string_of_uint d)) acc
    = acc * 10 ^ Z.of_N (DecimalPos.Unsigned.usize d)
      + Z.of_N (DecimalPos.Unsigned.of_lu (Decimal.rev d)).
Proof.
  induction d; intros acc;
    [ simpl; lia | .. ];
    cbn [NilEmpty.string_of_uint chars list_ascii_of_string fold_left];
    fold (chars (NilEmpty.string_of_uint d));
    rewrite IHd;
    match goal with
    | |- context [Decimal.rev (?c d)] =>
        change (Decimal.rev (c d)) with (Decimal.revapp d (c Decimal.Nil));
        rewrite (DecimalPos.Unsigned.of_lu_revapp d (c Decimal.Nil));
        let v := eval vm_compute in (DecimalPos.Unsigned.of_lu (c Decimal.Nil)) in
        change (DecimalPos.Unsigned.of_lu (c Decimal.Nil)) with v
    end;
    match goal with
    | |- context [digit_value ?c] =>
        let v := eval vm_compute in (digit_value c) in
        change (digit_value c) with v
    end;
    cbn [DecimalPos.Unsigned.usize];
    rewrite N2Z.inj_succ, Z.pow_succ_r by lia;
    rewrite N2Z.inj_add, N2Z.inj_mul, N2Z.inj_pow;
    match goal with
    | |- context [Z.of_N (DecimalPos.Unsigned.of_lu (Decimal.rev d)) + Z.of_N ?n * _] =>
        let v := eval vm_compute in (Z.of_N n) in
        change (Z.of_N n) with v
    end;
    change (Z.of_N 10) with 10;
    ring.
Qed.

Lemma positive_digits_value (p : positive) :
  digits_value (chars (NilEmpty.string_of_uint (Pos.to_uint p))) = Z.pos p.
Proof.
  unfold digits_value. rewrite uint_value.
  rewrite <- DecimalPos.Unsigned.of_uint_alt, DecimalPos.Unsigned.of_to.
  reflexivity.
Qed.

Lemma positive_string (p : positive) :
  NilZero.string_of_uint (Pos.to_uint p)
  = NilEmpty.string_of_uint (Pos.to_uint p).
Proof.
  unfold NilZero.string_of_uint.
  pose proof (DecimalPos.Unsigned.to_uint_nonnil p) as Hn.
  destruct (Pos.to_uint p); [congruence | reflexivity ..].
Qed.

Lemma positive_chars_nonempty (p : positive) :
  chars (NilEmpty.string_of_uint (Pos.to_uint p)) <> [].
Proof.
  pose proof (DecimalPos.Unsigned.to_uint_nonnil p) as Hn.
  destruct (Pos.to_uint p); [congruence | discriminate ..].
Qed.

(** [parseInt] reads back the integer [toString] wrote, up to 2^53. *)
Lemma parseInt10_number_toString (n : Z) :
  Z.abs n <= 2 ^ 53 ->
  parseInt10 (number_toString n) = Num n.
Proof.
  intros Hb. unfold number_toString.
  apply Z.leb_le in Hb as Hb'. rewrite Hb'. clear Hb'. unfold decimal.
  destruct n as [| p | p]; [reflexivity | |].
  - cbn [Z.to_int NilZero.string_of_int].
    rewrite positive_string.
    rewrite <- (of_chars_chars (NilEmpty.string_of_uint (Pos.to_uint p))).
    rewrite parseInt10_digits by apply uint_digits.
    pose proof (positive_chars_nonempty p) as Hne.
    rewrite positive_digits_value.
    destruct (chars (NilEmpty.string_of_uint (Pos.to_uint p)));
      [congruence |].
    apply nearest_double_exact. exact Hb.
  - cbn [Z.to_int NilZero.string_of_int].
    rewrite positive_string.
    unfold parseInt10.
    cbn [chars list_ascii_of_string].
    fold (chars (NilEmpty.string_of_uint (Pos.to_uint p))).
    pose proof (uint_digits (Pos.to_uint p)) as Hd.
    pose proof (positive_chars_nonempty p) as Hne.
    pose proof (positive_digits_value p) as Hv.
    destruct (chars (NilEmpty.string_of_uint (Pos.to_uint p)))
      as [| c l] eqn:El; [congruence |].
    assert (drop_ws true ("-"%char :: c :: l) = "-"%char :: c :: l) as ->.
    { cbn [drop_ws]. change (ws1 "-") with false. cbv iota.
      assert (ws2 "-" c = false) as -> by reflexivity.
      destruct l as [| c' l']; [reflexivity |].
      assert (ws3 "-" c c' = false) as -> by reflexivity.
      reflexivity. }
    rewrite (digit_prefix_all _ Hd), Hv.
    rewrite nearest_double_exact by exact Hb. reflexivity.
Qed.

(** An integer price bound other than 0 travels through the URL: the
    minPrice (maxPrice) parameter of the built URL is the string
    conversion of the bound, and up to 2^53 in magnitude that is its
    decimal writing, from which [parseInt] reads the bound back.  Beyond,
    the writing may lose the bound: 10^21 is written '1e+21', which
    [parseInt] reads as 1. *)
Theorem price_bound_round_trip (h : bool) (term : string) (n : Z)
  (other threshold : option Z) (pages : Z) :
  n <> 0 ->
  Z.abs n <= 2 ^ 53 ->
  get (url_params (buildSearchURL (mkOptions h term (Some n) other threshold pages)))
    "minPrice" = Some (decimal n)
  /\ get (url_params (buildSearchURL (mkOptions h term other (Some n) threshold pages)))
       "maxPrice" = Some (decimal n)
  /\ parseInt10 (decimal n) = Num n
  /\ get (url_params
            (buildSearchURL (mkOptions h term (Some (10 ^ 21)) other threshold pages)))
       "minPrice" = Some "1e+21"
  /\ parseInt10 "1e+21" = Num 1.
Proof.
  intros Hn Hb. unfold buildSearchURL. cbn [searchTerm minPrice maxPrice].
  rewrite !url_params_searchURL, !searchParams_shape.
  assert (truthy (Some n) = true) as Ht.
  { simpl. now apply negb_true_iff, Z.eqb_neq. }
  assert (number_toString n = decimal n) as Hs.
  { unfold number_toString. apply Z.leb_le in Hb. now rewrite Hb. }
  rewrite Ht. cbn [opt_toString]. rewrite Hs.
  split; [reflexivity |]. split; [| split; [| split]].
  - destruct (truthy other); reflexivity.
  - rewrite <- Hs. now apply parseInt10_number_toString.
  - reflexivity.
  - reflexivity.
Qed.

Lemma price_bound_round_trip_witness :
  100 <> 0
  /\ Z.abs 100 <= 2 ^ 53
  /\ get (url_params
            (buildSearchURL (mkOptions true "smartphone" (Some 100) (Some 500)
                               (Some 50) 3)))
       "minPrice" = Some (decimal 100).
Proof.
  split; [lia |]. split; [vm_compute; discriminate |].
  apply (price_bound_round_trip true "smartphone" 100 (Some 500) (Some 50) 3);
    [lia | vm_compute; discriminate].
Defined.

Lemma uri_decode_encode_byte (c : ascii) (r : list ascii) :
  form_decode ((if uri_unreserved c then [c] else percent c) ++ r)
  = c :: form_decode r.
Proof.
  destruct c as [[] [] [] [] [] [] [] []]; reflexivity.
Qed.

Lemma uri_decode_encode (term : string) :
  form_decode (chars (encodeURIComponent term)) = chars term.
Proof.
  unfold encodeURIComponent. rewrite chars_of_chars.
  induction (chars term) as [| c l IH]; [reflexivity |].
  cbn [flat_map]. now rewrite uri_decode_encode_byte, IH.
Qed.

(** No search term is lost or confused with another: percent-decoding the
    SearchText parameter of the built URL a second time gives the term
    back, so two options that build the same URL have the same term. *)
Theorem search_term_recoverable :
  (forall options : Options,
      exists v,
        get (url_params (buildSearchURL options)) "SearchText" = Some v
        /\ of_chars (form_decode (chars v)) = searchTerm options)
  /\ (forall options options' : Options,
        buildSearchURL options = buildSearchURL options' ->
        searchTerm options = searchTerm options').
Proof.
  assert (forall options : Options,
             exists v,
               get (url_params (buildSearchURL options)) "SearchText" = Some v
               /\ of_chars (form_decode (chars v)) = searchTerm options) as H.
  { intros options. exists (encodeURIComponent (searchTerm options)).
    split; [apply searchText_read_back |].
    now rewrite uri_decode_encode, of_chars_chars. }
  split; [exact H |].
  intros o o' Heq.
  destruct (H o) as (v & Hv & Hterm), (H o') as (v' & Hv' & Hterm').
  rewrite Heq in Hv. rewrite Hv in Hv'. inversion Hv'; subst v'.
  congruence.
Qed.

Lemma form_encode_byte_safe (c : ascii) :
  forallb url_safe (form_encode_byte c) = true.
Proof.
  destruct c as [[] [] [] [] [] [] [] []]; reflexivity.
Qed.

Lemma form_encode_safe (s : string) : forallb url_safe (form_encode s) = true.
Proof.
  unfold form_encode.
  induction (chars s) as [| c l IH]; [reflexivity |].
  cbn [flat_map]. now rewrite forallb_app, form_encode_byte_safe, IH.
Qed.

Lemma serialize_safe (ps : URLSearchParams) :
  forallb url_safe (serialize ps) = true.
Proof.
  assert (forall p, forallb url_safe (serialize_pair p) = true) as Hp.
  { intros p. unfold serialize_pair. rewrite forallb_app. cbn [forallb].
    now rewrite !form_encode_safe. }
  induction ps as [| p ps IH]; [reflexivity |].
  destruct ps as [| q ps]; [apply Hp |].
  change (serialize (p :: q :: ps))
    with (serialize_pair p ++ "&"%char :: serialize (q :: ps)).
  rewrite forallb_app. cbn [forallb]. now rewrite Hp, IH.
Qed.

(** Whatever the search term, the built URL is made of letters, digits
    and [- _ . * % + = & : / ?] only: no space, no quote, no byte above
    127. *)
Theorem built_url_is_safe (options : Options) :
  forallb url_safe (chars (buildSearchURL options)) = true.
Proof.
  unfold buildSearchURL, searchURL_of, toString.
  rewrite !chars_append, !forallb_app, chars_of_chars, serialize_safe.
  reflexivity.
Qed.

End UrlFacts.

(** ** The crawl of the class *)

Section CrawlFacts.

Local Open Scope list_scope.

Lemma clicks_app (tr1 tr2 : list Event) :
  clicks (tr1 ++ tr2) = (clicks tr1 + clicks tr2)%nat.
Proof. unfold clicks. now rewrite filter_app, length_app. Qed.

Lemma goto_urls_app (tr1 tr2 : list Event) :
  goto_urls (tr1 ++ tr2) = goto_urls tr1 ++ goto_urls tr2.
Proof.
  induction tr1 as [| ev tr1 IH]; [reflexivity |].
  destruct ev as [[] | | | | | |]; cbn; now rewrite IH.
Qed.

(** A log of [initialize] has no navigation, click, extraction or close. *)
Lemma setup_only (tr : list Event) :
  forallb is_setup tr = true ->
  goto_urls tr = [] /\ clicks tr = 0%nat /\ existsb nav_failed tr = false
  /\ forallb is_command tr = true.
Proof.
  induction tr as [| ev tr IH]; intros H; [repeat split |].
  simpl in H. apply andb_true_iff in H as [Hev H].
  destruct (IH H) as (Hg & Hc & Hn & Hcmd).
  destruct ev as [[] [] | | | | | |]; try discriminate;
    unfold clicks in *; cbn; repeat split; assumption.
Qed.

Variable options : Options.

Lemma LoopTrace_clicks p tr r :
  LoopTrace options p tr r ->
  (clicks tr <= Z.to_nat (maxPages options - p))%nat
  /\ (clicks tr <= extractions tr)%nat
  /\ goto_urls tr = []
  /\ existsb nav_failed tr = false.
Proof.
  intros HT.
  induction HT as
    [ p Hgt | p e Hle | p els e Hle | p els b Hle Hb
    | p els e Hlt | p els e Hlt | p els tr r Hlt HT IH ];
    unfold clicks, extractions in *; cbn; repeat split; try lia;
    try (destruct b; reflexivity).
  all: destruct IH as (Hc & He & Hg & Hn); try assumption; lia.
Qed.

Lemma LoopTrace_past_the_end p tr r :
  LoopTrace options p tr r -> maxPages options < p ->
  tr = [] /\ r = Ok (LoopCond p).
Proof.
  intros HT Hgt. destruct HT; try lia. split; reflexivity.
Qed.

End CrawlFacts.

Section CrawlRuns.

Context {E : Env}.

Local Open Scope list_scope.

Ltac run_in H := cbn [env log products emit with_env ret] in H.

Ltac next_command H :=
  match type of H with
  | context [run_command E ?c ?w] =>
      let e := fresh "e" in
      let w' := fresh "w" in
      destruct (run_command E c w) as [[[] | e] w']; run_in H
  end.

Ltac setup_done H :=
  inversion H; subst; clear H;
  eexists; cbn [log products emit with_env];
  rewrite <- ?app_assoc; cbn [app];
  split; [reflexivity |]; repeat split.

Lemma initialize_setup (options : Options) (s s' : State E) (r : Outcome unit) :
  initialize options s = (r, s') ->
  exists tr,
    log s' = log s ++ tr
    /\ forallb is_setup tr = true
    /\ agrees tr r.
Proof.
  intros H. unfold initialize, bind, command in H. run_in H.
  next_command H; [| setup_done H].
  next_command H; [| setup_done H].
  next_command H; [| setup_done H].
  next_command H; [| setup_done H].
  next_command H; setup_done H.
Qed.

(** The log of a whole run, with the log of [initialize] named. *)
Lemma scrapeProducts_log (options : Options) (s s' : State E)
  (r : Outcome (list ProductRecord)) :
  scrapeProducts options s = (r, s') ->
  exists init,
    log (snd (initialize options s)) = log s ++ init
    /\ forallb is_setup init = true
    /\ ((exists e,
            fst (initialize options s) = Throw e
            /\ r = Throw e /\ s' = snd (initialize options s))
        \/ (exists tr cr,
              fst (initialize options s) = Ok tt
              /\ forallb quiet init = true
              /\ log s' = log s ++ init ++ tr ++ epilogue cr
              /\ CrawlTrace options (buildSearchURL options) tr cr
              /\ r = Ok (harvest options tr))).
Proof.
  intros H. unfold scrapeProducts in H. unfold bind at 1 in H.
  destruct (initialize options s) as [[[] | e] s1] eqn:I; cbn [fst snd].
  2:{ inversion H; subst; clear H.
      apply initialize_setup in I as (init & Hlog & Hset & _).
      exists init. split; [assumption |]. split; [assumption |].
      left. exists e. repeat split. }
  apply initialize_setup in I as (init & Hlog & Hset & Hag).
  exists init. split; [assumption |]. split; [assumption |]. right.
  unfold bind at 1, new_products at 1 in H.
  unfold bind at 1, finally, catch in H. unfold bind at 1 in H.
  match type of H with
  | context [crawl ?o ?u ?st] =>
      destruct (crawl o u st) as [cr s2] eqn:C
  end.
  apply crawl_trace in C as (tr & Hlog2 & HT & Hprod2).
  cbn [log products emit with_env] in Hlog2, Hprod2.
  exists tr, cr.
  destruct cr as [x | e];
    unfold browser_close, console_error, read_products, ret in H;
    cbn [env log products emit with_env] in H;
    inversion H; subst; clear H;
    cbn [log products emit with_env epilogue];
    rewrite Hlog2, Hlog, Hprod2, <- ?app_assoc; cbn [app];
    repeat split; assumption.
Qed.

(** When [initialize] throws, [scrapeProducts] throws the same error and
    does nothing more: it leaves the state [initialize] left, so there is
    no navigation, no extraction pass and no close. *)
Theorem scrapeProducts_initialize_failure (options : Options) (s : State E)
  (e : Error) :
  fst (initialize options s) = Throw e ->
  scrapeProducts options s = (Throw e, snd (initialize options s))
  /\ exists tr,
       log (snd (scrapeProducts options s)) = log s ++ tr
       /\ goto_urls tr = [] /\ extractions tr = 0%nat /\ closes tr = 0%nat.
Proof.
  intros Hinit.
  destruct (scrapeProducts options s) as [r s'] eqn:R. cbn [snd].
  apply scrapeProducts_log in R
    as (init & Hlog & Hset & [(e' & Hi & Hr & Hs) | (tr & cr & Hi & _)]).
  2:{ rewrite Hi in Hinit. discriminate. }
  rewrite Hi in Hinit. inversion Hinit; subst e'. subst r s'.
  split; [reflexivity |].
  exists init. split; [assumption |].
  destruct (setup_only init Hset) as (Hg & _ & _ & Hcmd).
  destruct (commands_only init Hcmd) as (He & Hc & _).
  repeat split; assumption.
Qed.

(** With [maxPages] zero or negative the crawl still opens the search
    page, then makes no extraction pass and no click, and returns the
    empty list. *)
Theorem scrapeProducts_without_pages (options : Options) (s : State E) :
  maxPages options <= 0 ->
  fst (initialize options s) = Ok tt ->
  fst (scrapeProducts options s) = Ok []
  /\ exists tr,
       log (snd (scrapeProducts options s)) = log s ++ tr
       /\ goto_urls tr = [buildSearchURL options]
       /\ extractions tr = 0%nat /\ clicks tr = 0%nat.
Proof.
  intros HN Hinit.
  destruct (scrapeProducts options s) as [r s'] eqn:R. cbn [fst snd].
  apply scrapeProducts_log in R
    as (init & Hlog & Hset & [(e' & Hi & _) | (tr & cr & _ & _ & Hlog' & HT & Hr)]).
  { rewrite Hi in Hinit. discriminate. }
  destruct (setup_only init Hset) as (Hg & Hcl & _ & Hcmd).
  destruct (commands_only init Hcmd) as (He & _).
  assert (harvest options tr = [] /\ goto_urls tr = [buildSearchURL options]
          /\ extractions tr = 0%nat /\ clicks tr = 0%nat) as (Hh & Hgt & Het & Hct).
  { destruct HT as [e | e | tr' r' HL]; try (repeat split; reflexivity).
    apply LoopTrace_past_the_end in HL as [-> _]; [| lia].
    repeat split; reflexivity. }
  split; [now rewrite Hr, Hh |].
  exists (init ++ tr ++ epilogue cr). split; [assumption |].
  rewrite !goto_urls_app, !extractions_app, !clicks_app, Hg, He, Hcl, Hgt, Het, Hct.
  destruct cr; repeat split; reflexivity.
Qed.

(** The next-page button is clicked at most [maxPages - 1] times, and never
    more often than pages were extracted. *)
Theorem clicks_bounded (options : Options) (s : State E) :
  exists tr,
    log (snd (scrapeProducts options s)) = log s ++ tr
    /\ (clicks tr <= Z.to_nat (maxPages options - 1))%nat
    /\ (clicks tr <= extractions tr)%nat.
Proof.
  destruct (scrapeProducts options s) as [r s'] eqn:R. cbn [snd].
  apply scrapeProducts_log in R
    as (init & Hlog & Hset &
        [(e' & _ & _ & Hs) | (tr & cr & _ & _ & Hlog' & HT & _)]).
  - exists init. subst s'. split; [assumption |].
    destruct (setup_only init Hset) as (_ & Hcl & _). rewrite Hcl. lia.
  - exists (init ++ tr ++ epilogue cr). split; [assumption |].
    destruct (setup_only init Hset) as (_ & Hcl & _).
    assert (clicks (epilogue cr) = 0%nat) as Hce by (destruct cr; reflexivity).
    rewrite !clicks_app, !extractions_app, Hcl, Hce.
    assert ((clicks tr <= Z.to_nat (maxPages options - 1))%nat
            /\ (clicks tr <= extractions tr)%nat) as [H1 H2].
    { destruct HT as [e | e | tr' r' HL]; try (cbn; lia).
      apply LoopTrace_clicks in HL as (Hc1 & Hc2 & _).
      rewrite clicks_app, extractions_app. cbn. lia. }
    lia.
Qed.

(** Once [initialize] has succeeded, closing the session is the last thing
    [scrapeProducts] does, and it does it once. *)
Theorem session_closed_last (options : Options) (s : State E) :
  fst (initialize options s) = Ok tt ->
  exists tr,
    log (snd (scrapeProducts options s)) = log s ++ tr ++ [EClose]
    /\ closes tr = 0%nat.
Proof.
  intros Hinit.
  destruct (scrapeProducts options s) as [r s'] eqn:R. cbn [snd].
  apply scrapeProducts_log in R
    as (init & Hlog & Hset &
        [(e' & Hi & _) | (tr & cr & _ & _ & Hlog' & HT & _)]).
  { rewrite Hi in Hinit. discriminate. }
  destruct (setup_only init Hset) as (_ & _ & _ & Hcmd).
  destruct (commands_only init Hcmd) as (_ & Hc & _).
  pose proof (CrawlTrace_closes _ _ _ _ HT) as Hct.
  destruct cr as [x | e]; cbn [epilogue] in Hlog'.
  - exists (init ++ tr). rewrite <- app_assoc. split; [assumption |].
    rewrite closes_app. lia.
  - exists (init ++ tr ++ [EConsoleError e]).
    rewrite <- !app_assoc. split; [assumption |].
    rewrite !closes_app, Hc, Hct. reflexivity.
Qed.

(** When the navigation to the search page throws, or the wait for the
    first [.product-item] does (a page without results), the crawl makes
    no extraction pass and returns the empty list, not an error. *)
Theorem navigation_failure_gives_no_products (options : Options)
  (s : State E) (tr : list Event) :
  log (snd (scrapeProducts options s)) = log s ++ tr ->
  existsb nav_failed tr = true ->
  fst (scrapeProducts options s) = Ok []
  /\ extractions tr = 0%nat.
Proof.
  intros Htr Hnav.
  destruct (scrapeProducts options s) as [r s'] eqn:R. cbn [fst snd] in *.
  apply scrapeProducts_log in R
    as (init & Hlog & Hset &
        [(e' & _ & _ & Hs) | (tr' & cr & _ & _ & Hlog' & HT & Hr)]).
  - subst s'. rewrite Htr in Hlog. apply app_inv_head in Hlog. subst tr.
    destruct (setup_only init Hset) as (_ & _ & Hn & _). congruence.
  - rewrite Htr in Hlog'. apply app_inv_head in Hlog'. subst tr.
    destruct (setup_only init Hset) as (_ & _ & Hn & Hcmd).
    destruct (commands_only init Hcmd) as (He & _).
    rewrite !existsb_app, Hn in Hnav.
    assert (existsb nav_failed (epilogue cr) = false) as Hne
      by (destruct cr; reflexivity).
    rewrite Hne, orb_false_r in Hnav. cbn [orb] in Hnav.
    assert (extractions (epilogue cr) = 0%nat) as Hee
      by (destruct cr; reflexivity).
    rewrite !extractions_app, He, Hee.
    destruct HT as [e | e | tr'' r' HL].
    + split; [now rewrite Hr | reflexivity].
    + split; [now rewrite Hr | reflexivity].
    + apply LoopTrace_clicks in HL as (_ & _ & _ & Hn').
      rewrite existsb_app in Hnav. cbn in Hnav. congruence.
Qed.

End CrawlRuns.

(** ** The crawl on a site that never fails *)

Section ScriptedSite.

Local Open Scope list_scope.

Variable options : Options.

Lemma scripted_pagination (fuel : nat) :
  forall (pageNum : Z) (site : list Scripted.Page) (current calls live : nat)
         (lg : list Event) (acc : list ProductRecord),
    (Z.to_nat (maxPages options + 1 - pageNum) < fuel)%nat ->
    exists r s',
      pagination options fuel pageNum
        (@mkState Scripted.browser
           (Scripted.mkWorld site current calls None live) lg acc)
      = (Ok r, s')
      /\ products s'
         = acc ++ flat_map (fun pg => pageProducts options (Scripted.items pg))
                    (visit site current
                       (Z.to_nat (maxPages options + 1 - pageNum))).
Proof.
  induction fuel as [| fuel IH];
    intros p site current calls live lg acc Hfuel; [lia |].
  simpl pagination.
  destruct (Z.leb_spec p (maxPages options)) as [Hle | Hgt].
  2:{ replace (Z.to_nat (maxPages options + 1 - p)) with 0%nat by lia.
      do 2 eexists. split; [reflexivity |]. cbn. now rewrite app_nil_r. }
  replace (Z.to_nat (maxPages options + 1 - p))
    with (S (Z.to_nat (maxPages options - p))) by lia.
  cbn [visit flat_map].
  unfold bind, mark, evaluate, push, query, command.
  cbn [evaluate_items query_selector run_command Scripted.browser].
  unfold Scripted.call, Scripted.faulty, Scripted.the_page, Scripted.tick,
    Scripted.effect, emit, with_env.
  cbn [env log products Scripted.fault Scripted.current Scripted.site
         Scripted.calls Scripted.live].
  set (pg := nth current site (Scripted.mkPage [] false)).
  destruct (Scripted.has_next pg) eqn:Hnext; cbn [andb].
  2:{ do 2 eexists. split; [reflexivity |]. cbn [products].
      now rewrite app_nil_r. }
  destruct (Z.ltb_spec p (maxPages options)) as [Hlt | Hge].
  2:{ replace (Z.to_nat (maxPages options - p)) with 0%nat by lia.
      do 2 eexists. split; [reflexivity |]. cbn [products visit].
      now rewrite app_nil_r. }
  cbn [env log products Scripted.fault Scripted.current Scripted.site
         Scripted.calls Scripted.live].
  match goal with
  | |- context [pagination options fuel (p + 1)
                  (@mkState _ (Scripted.mkWorld ?st ?c ?k None ?l) ?g ?a)] =>
      destruct (IH (p + 1) st c k l g a) as (r & s' & Hrun & Hprod); [lia |]
  end.
  exists r, s'. split; [exact Hrun |].
  rewrite Hprod, <- app_assoc.
  replace (Z.to_nat (maxPages options + 1 - (p + 1)))
    with (Z.to_nat (maxPages options - p)) by lia.
  reflexivity.
Qed.

Lemma scripted_site_crawl_eq (site : list Scripted.Page) :
  fst (scrapeProducts options (Scripted.start site None))
  = Ok (flat_map (fun pg => pageProducts options (Scripted.items pg))
          (visit site 0 (Z.to_nat (maxPages options)))).
Proof.
  unfold scrapeProducts, initialize, crawl, Scripted.start.
  unfold finally, catch, bind, command, new_products.
  cbn [run_command Scripted.browser].
  unfold Scripted.call, Scripted.faulty, Scripted.tick, Scripted.effect,
    emit, with_env.
  cbn [env log products Scripted.fault Scripted.current Scripted.site
         Scripted.calls Scripted.live].
  match goal with
  | |- context [pagination options (loop_fuel options) 1
                  (@mkState _ (Scripted.mkWorld ?st ?c ?k None ?l) ?g ?a)] =>
      destruct (scripted_pagination (loop_fuel options) 1 st c k l g a)
        as (r & s' & Hrun & Hprod); [unfold loop_fuel; lia |]
  end.
  rewrite Hrun. unfold ret, browser_close, read_products, emit, with_env.
  cbn [fst env log products].
  rewrite Hprod. cbn [app].
  replace (Z.to_nat (maxPages options + 1 - 1))
    with (Z.to_nat (maxPages options)) by lia.
  reflexivity.
Qed.

(** On a site where no call fails, [scrapeProducts] returns the filtered
    records of the pages [visit] lists, in order: it reads pages from the
    first one on, and stops after [maxPages] pages or after the first page
    without next-page button; the pages it reads are as many as its
    extraction passes. *)
Theorem scripted_site_crawl (site : list Scripted.Page) :
  fst (scrapeProducts options (Scripted.start site None))
  = Ok (flat_map (fun pg => pageProducts options (Scripted.items pg))
          (visit site 0 (Z.to_nat (maxPages options))))
  /\ (length (visit site 0 (Z.to_nat (maxPages options)))
      <= Z.to_nat (maxPages options))%nat.
Proof.
  split; [apply scripted_site_crawl_eq |].
  generalize 0%nat. induction (Z.to_nat (maxPages options)) as [| b IH];
    intros c; cbn [visit length]; [lia |].
  destruct (Scripted.has_next _); [specialize (IH (S c)) | cbn]; lia.
Qed.

Lemma visit_all_next (site : list Scripted.Page) :
  forall current budget : nat,
    forallb Scripted.has_next site = true ->
    (current + budget <= length site)%nat ->
    visit site current budget = firstn budget (skipn current site).
Proof.
  intros current budget Hall. revert current.
  induction budget as [| b IH]; intros current Hlen; [reflexivity |].
  cbn [visit].
  assert (current < length site)%nat as Hc by lia.
  destruct (skipn current site) as [| pg rest] eqn:Esk.
  { apply (f_equal (@length _)) in Esk. rewrite length_skipn in Esk.
    simpl in Esk. lia. }
  assert (nth current site (Scripted.mkPage [] false) = pg) as Hnth.
  { rewrite <- (firstn_skipn current site) at 1. rewrite Esk.
    rewrite app_nth2; rewrite length_firstn, Nat.min_l by lia; [| lia].
    now rewrite Nat.sub_diag. }
  rewrite Hnth.
  assert (Scripted.has_next pg = true) as Hn.
  { rewrite forallb_forall in Hall. apply Hall.
    rewrite <- (firstn_skipn current site), Esk.
    apply in_or_app. right. now left. }
  rewrite Hn. cbn [firstn]. f_equal.
  rewrite IH by lia.
  assert (skipn (S current) site = rest) as ->; [| reflexivity].
  change (S current) with (1 + current)%nat.
  rewrite <- skipn_skipn, Esk. reflexivity.
Qed.

(** On a site where no call fails and every page has a next-page button,
    a crawl with [maxPages = N] returns the filtered records of the first
    [N] pages. *)
Theorem crawl_reads_first_pages (site : list Scripted.Page) :
  forallb Scripted.has_next site = true ->
  (Z.to_nat (maxPages options) <= length site)%nat ->
  fst (scrapeProducts options (Scripted.start site None))
  = Ok (flat_map (fun pg => pageProducts options (Scripted.items pg))
          (firstn (Z.to_nat (maxPages options)) site)).
Proof.
  intros Hall Hlen.
  rewrite scripted_site_crawl_eq.
  rewrite (visit_all_next site 0 _ Hall) by lia. reflexivity.
Qed.

End ScriptedSite.

(** ** exportToJson, run and main *)

Section ProcessRuns.

Context {E : Env} {F : FileSystem}.

Local Open Scope list_scope.

Lemma exportToJson_run (this : ScraperOptions) (products : list ProductRecord)
  (p : Process E F) :
  exists r d,
    writeFile F (outputFile this)
      (report_of this products (now E (env (session p)))) (files p) = (r, d)
    /\ exportToJson this products p
       = (Ok (report_of this products (now E (env (session p)))),
          {| session := session p;
             files := d;
             output :=
               output p
               ++ [OWriteFile (outputFile this)
                     (report_of this products (now E (env (session p)))) r;
                   export_note (outputFile this) r] |}).
Proof.
  unfold exportToJson, bind_R, catch_R, on_session, date_now, fs_writeFile,
    console_log, console_error_R, unit_R, print.
  cbn [session files output].
  fold (report_of this products (now E (env (session p)))).
  destruct (writeFile F (outputFile this)
              (report_of this products (now E (env (session p)))) (files p))
    as [[[] | e] d] eqn:W;
    do 2 eexists; (split; [reflexivity |]);
    cbn [session files output export_note]; rewrite <- app_assoc; reflexivity.
Qed.

(** [exportToJson] never throws, whatever the write does: it returns the
    report of the products it was given (their number, the options, the
    clock reading), after one write of that report to [outputFile],
    followed by one console line (completion, or the write's error). *)
Theorem exportToJson_returns_report (this : ScraperOptions)
  (products : list ProductRecord) (p : Process E F) :
  exists r,
    fst (exportToJson this products p)
    = Ok (report_of this products (now E (env (session p))))
    /\ output (snd (exportToJson this products p))
       = output p
         ++ [OWriteFile (outputFile this)
               (report_of this products (now E (env (session p)))) r;
             export_note (outputFile this) r]
    /\ session (snd (exportToJson this products p)) = session p
    /\ total_products
         (metadata (report_of this products (now E (env (session p)))))
       = Z.of_nat (length products).
Proof.
  destruct (exportToJson_run this products p) as (r & d & _ & Hrun).
  exists r. rewrite Hrun. repeat split.
Qed.

Lemma harvest_whole_log (options : Options) (init tr : list Event)
  {A : Type} (cr : Outcome A) :
  forallb is_setup init = true ->
  harvest options (init ++ tr ++ epilogue cr) = harvest options tr.
Proof.
  intros Hset.
  destruct (setup_only init Hset) as (_ & _ & _ & Hcmd).
  destruct (commands_only init Hcmd) as (_ & _ & _ & Hh).
  rewrite !harvest_app, Hh. destruct cr; cbn; now rewrite app_nil_r.
Qed.

(** The two ways [run] goes. *)
Lemma run_cases (this : ScraperOptions) (p : Process E F) :
  (exists e,
      fst (initialize (crawl_options this) (session p)) = Throw e
      /\ run this p
         = (Throw e,
            {| session := snd (initialize (crawl_options this) (session p));
               files := files p; output := output p |}))
  \/ (exists tr r d s',
        fst (initialize (crawl_options this) (session p)) = Ok tt
        /\ log s' = log (session p) ++ tr
        /\ writeFile F (outputFile this)
             (report_of this (harvest (crawl_options this) tr) (now E (env s')))
             (files p) = (r, d)
        /\ run this p
           = (Ok (report_of this (harvest (crawl_options this) tr)
                    (now E (env s'))),
              {| session := s'; files := d;
                 output :=
                   output p
                   ++ [OWriteFile (outputFile this)
                         (report_of this (harvest (crawl_options this) tr)
                            (now E (env s'))) r;
                       export_note (outputFile this) r] |})).
Proof.
  unfold run, bind_R, on_session.
  destruct (scrapeProducts (crawl_options this) (session p)) as [res s'] eqn:R.
  apply scrapeProducts_log in R
    as (init & _ & Hset &
        [(e' & Hi & -> & ->) | (tr & cr & Hi & _ & Hlog & _ & ->)]).
  - left. exists e'. split; [exact Hi | reflexivity].
  - right.
    match goal with
    | |- context [exportToJson this ?ps ?q] =>
        destruct (exportToJson_run this ps q) as (r & d & Hw & Hrun)
    end.
    rewrite Hrun. cbn [session files output] in *.
    exists (init ++ tr ++ epilogue cr), r, d, s'.
    rewrite (harvest_whole_log _ _ _ _ Hset) in *.
    split; [exact Hi |]. split; [exact Hlog |].
    split; [exact Hw | reflexivity].
Qed.

(** When [initialize] throws, [run] throws the same error: no report is
    built, nothing is written and nothing is printed. *)
Theorem run_initialize_failure (this : ScraperOptions) (p : Process E F)
  (e : Error) :
  fst (initialize (crawl_options this) (session p)) = Throw e ->
  fst (run this p) = Throw e
  /\ output (snd (run this p)) = output p
  /\ files (snd (run this p)) = files p.
Proof.
  intros Hinit.
  destruct (run_cases this p)
    as [(e' & Hi & ->) | (tr & r & d & s' & Hi & _)];
    rewrite Hi in Hinit; [| discriminate].
  inversion Hinit; subst. repeat split.
Qed.

(** Once [initialize] has succeeded, [run] returns a report, whether or
    not the crawl was cut short by a call that threw: the report holds
    what the successful extraction passes returned and says nothing of the
    failure.  [run] hands that report to one write to [outputFile], made
    on the files as it found them, and leaves the files as that write
    left them; whether the write returned or threw only shows in the
    console line that follows it (completion, or the write's error). *)
Theorem run_writes_what_was_crawled (this : ScraperOptions) (p : Process E F) :
  fst (initialize (crawl_options this) (session p)) = Ok tt ->
  exists tr report r d,
    log (session (snd (run this p))) = log (session p) ++ tr
    /\ fst (run this p) = Ok report
    /\ report_products report = harvest (crawl_options this) tr
    /\ total_products (metadata report)
       = Z.of_nat (length (harvest (crawl_options this) tr))
    /\ writeFile F (outputFile this) report (files p) = (r, d)
    /\ files (snd (run this p)) = d
    /\ output (snd (run this p))
       = output p
         ++ [OWriteFile (outputFile this) report r;
             match r with
             | Ok _ => OLog ("JSON Export completed: " ++ outputFile this)
             | Throw e => OError "JSON export error:" e
             end].
Proof.
  intros Hinit.
  destruct (run_cases this p)
    as [(e' & Hi & _) | (tr & r & d & s' & _ & Hlog & Hw & ->)].
  { rewrite Hi in Hinit. discriminate. }
  exists tr. do 3 eexists. cbn [fst snd session files output].
  split; [exact Hlog |]. split; [reflexivity |].
  split; [reflexivity |]. split; [reflexivity |].
  split; [exact Hw |]. split; reflexivity.
Qed.

(** [main] never throws, and it goes one of three ways.  [initialize]
    threw: the files are untouched and the only output is the line
    'Scraping failed:' with the error.  Or the report of the crawl for
    'smartphone' was handed to one write to aliexpress_smartphones.json,
    and the write returned: the files are what it left, and the
    completion line, the number of products and the report were printed.
    Or that write threw: the files are what it left, and its error, the
    number of products and the report were printed. *)
Theorem main_never_throws (p : Process E F) :
  fst (main p) = Ok tt
  /\ ((exists e,
          fst (initialize (crawl_options (AliExpressScraper main_options))
                 (session p)) = Throw e
          /\ files (snd (main p)) = files p
          /\ output (snd (main p))
             = output p ++ [OError "Scraping failed:" e])
      \/ (exists report d,
            writeFile F "aliexpress_smartphones.json" report (files p)
            = (Ok tt, d)
            /\ files (snd (main p)) = d
            /\ output (snd (main p))
               = output p
                 ++ [OWriteFile "aliexpress_smartphones.json" report (Ok tt);
                     OLog "JSON Export completed: aliexpress_smartphones.json";
                     OLog ("Scraped "
                           ++ number_toString
                                (Z.of_nat (length (report_products report)))
                           ++ " products");
                     OLogJson report]
            /\ search_term (metadata report) = "smartphone"
            /\ min_order_count (metadata report) = Some 50)
      \/ (exists report e d,
            writeFile F "aliexpress_smartphones.json" report (files p)
            = (Throw e, d)
            /\ files (snd (main p)) = d
            /\ output (snd (main p))
               = output p
                 ++ [OWriteFile "aliexpress_smartphones.json" report (Throw e);
                     OError "JSON export error:" e;
                     OLog ("Scraped "
                           ++ number_toString
                                (Z.of_nat (length (report_products report)))
                           ++ " products");
                     OLogJson report]
            /\ search_term (metadata report) = "smartphone"
            /\ min_order_count (metadata report) = Some 50)).
Proof.
  unfold main. cbv zeta. unfold catch_R, bind_R. cbv beta.
  destruct (run_cases (AliExpressScraper main_options) p)
    as [(e & Hi & ->) | (tr & r & d & s' & _ & _ & Hw & ->)].
  - unfold console_error_R, print. cbn [fst snd files output].
    split; [reflexivity |]. left. exists e.
    split; [exact Hi |]. split; reflexivity.
  - unfold console_log, console_log_json, print.
    cbn [fst snd session files output].
    split; [reflexivity |]. right.
    change (outputFile (AliExpressScraper main_options))
      with "aliexpress_smartphones.json" in *.
    rewrite <- !app_assoc. cbn [app].
    destruct r as [[] | e].
    + left. do 2 eexists. split; [exact Hw |].
      split; [reflexivity |]. split; [reflexivity |]. split; reflexivity.
    + right. do 3 eexists. split; [exact Hw |].
      split; [reflexivity |]. split; [reflexivity |]. split; reflexivity.
Qed.

End ProcessRuns.

(** ** Runs of the further properties on the scripted site *)

(** A GET request without a body. *)
Lemma handler_rejects_other_methods_witness :
  "GET" <> "POST"
  /\ handler (mkRequest "GET" None)
       (Scripted.start Scripted.three_pages None)
     = (Ok {| status := 405; json := ErrorBody "Method Not Allowed" None |},
        Scripted.start Scripted.three_pages None).
Proof.
  split; [discriminate |].
  apply (@handler_rejects_other_methods Scripted.browser
           (mkRequest "GET" None)
           (Scripted.start Scripted.three_pages None)).
  discriminate.
Defined.

(** A POST with the body [{}] on the three-page site. *)
Lemma handler_success_witness :
  status (mkResponse 200
            (ResultBody
               (mkMetadata "smartphone" (Some 100) (Some 500) (Some 50) 1
                  "2024-01-01T00:00:00.000Z")
               (handler_products (Some 50)
                  (Scripted.items (Scripted.mkPage
                     [Scripted.item "1" "10 orders"; Scripted.item "2" "60 orders"]
                     true))))) = 200
  /\ exists path els,
       log (snd (handler (Scripted.post Scripted.no_body)
                   (Scripted.start Scripted.three_pages None)))
       = (log (Scripted.start Scripted.three_pages None)
          ++ handler_log path
               (searchURL_of "smartphone" (Some 100) (Some 500)) els)%list
       /\ handler_products (Some 50) els
          = [product_of (fst (Scripted.item "2" "60 orders"))
               "2024-01-01T00:00:00.000Z"].
Proof.
  split; [reflexivity |].
  destruct (@handler_success Scripted.browser
              (Scripted.post Scripted.no_body)
              (Scripted.start Scripted.three_pages None)
              (mkResponse 200
                 (ResultBody
                    (mkMetadata "smartphone" (Some 100) (Some 500) (Some 50) 1
                       "2024-01-01T00:00:00.000Z")
                    (handler_products (Some 50)
                       (Scripted.items (Scripted.mkPage
                          [Scripted.item "1" "10 orders";
                           Scripted.item "2" "60 orders"] true)))))
              eq_refl eq_refl)
    as (fields & path & els & Hb & Hlog & Hjson).
  cbn [body Scripted.post] in Hb. inversion Hb. subst fields.
  exists path, els. split; [exact Hlog |].
  cbn [json Scripted.no_body body_minOrderCount dflt] in Hjson.
  now inversion Hjson.
Defined.

(** [newPage] throws. *)
Lemma scrapeProducts_initialize_failure_witness :
  fst (initialize (Scripted.options None 3)
         (Scripted.start Scripted.three_pages (Some 1%nat)))
  = Throw "Navigation timeout"
  /\ scrapeProducts (Scripted.options None 3)
       (Scripted.start Scripted.three_pages (Some 1%nat))
     = (Throw "Navigation timeout",
        snd (initialize (Scripted.options None 3)
               (Scripted.start Scripted.three_pages (Some 1%nat)))).
Proof.
  split; [reflexivity |].
  apply (@scrapeProducts_initialize_failure Scripted.browser
           (Scripted.options None 3)
           (Scripted.start Scripted.three_pages (Some 1%nat))
           "Navigation timeout").
  reflexivity.
Defined.

(** [maxPages = 0]. *)
Lemma scrapeProducts_without_pages_witness :
  maxPages (Scripted.options None 0) <= 0
  /\ fst (initialize (Scripted.options None 0)
            (Scripted.start Scripted.three_pages None)) = Ok tt
  /\ fst (scrapeProducts (Scripted.options None 0)
            (Scripted.start Scripted.three_pages None)) = Ok [].
Proof.
  split; [cbn; lia |]. split; [reflexivity |].
  apply (@scrapeProducts_without_pages Scripted.browser
           (Scripted.options None 0)
           (Scripted.start Scripted.three_pages None));
    [cbn; lia | reflexivity].
Defined.

(** The click that leads to page 2 throws. *)
Lemma session_closed_last_witness :
  fst (initialize (Scripted.options None 3)
         (Scripted.start Scripted.three_pages (Some 9%nat))) = Ok tt
  /\ exists tr,
       log (snd (scrapeProducts (Scripted.options None 3)
                   (Scripted.start Scripted.three_pages (Some 9%nat))))
       = (log (Scripted.start Scripted.three_pages (Some 9%nat))
          ++ tr ++ [EClose])%list
       /\ closes tr = 0%nat.
Proof.
  split; [reflexivity |].
  apply (@session_closed_last Scripted.browser (Scripted.options None 3)
           (Scripted.start Scripted.three_pages (Some 9%nat))).
  reflexivity.
Defined.

(** The wait for the first item throws. *)
Lemma navigation_failure_gives_no_products_witness :
  existsb nav_failed
    (log (snd (scrapeProducts (Scripted.options None 3)
                 (Scripted.start Scripted.three_pages (Some 6%nat))))) = true
  /\ fst (scrapeProducts (Scripted.options None 3)
            (Scripted.start Scripted.three_pages (Some 6%nat))) = Ok []
  /\ extractions
       (log (snd (scrapeProducts (Scripted.options None 3)
                    (Scripted.start Scripted.three_pages (Some 6%nat)))))
     = 0%nat.
Proof.
  split; [reflexivity |].
  apply (@navigation_failure_gives_no_products Scripted.browser
           (Scripted.options None 3)
           (Scripted.start Scripted.three_pages (Some 6%nat)));
    reflexivity.
Defined.

(** Two pages with a next-page button, [maxPages = 2]. *)
Lemma crawl_reads_first_pages_witness :
  forallb Scripted.has_next
    [Scripted.mkPage [Scripted.item "1" "10 orders"] true;
     Scripted.mkPage [Scripted.item "2" "60 orders"] true] = true
  /\ (Z.to_nat (maxPages (Scripted.options None 2)) <= 2)%nat
  /\ fst (scrapeProducts (Scripted.options None 2)
            (Scripted.start
               [Scripted.mkPage [Scripted.item "1" "10 orders"] true;
                Scripted.mkPage [Scripted.item "2" "60 orders"] true] None))
     = Ok (flat_map
             (fun pg => pageProducts (Scripted.options None 2) (Scripted.items pg))
             (firstn (Z.to_nat (maxPages (Scripted.options None 2)))
                [Scripted.mkPage [Scripted.item "1" "10 orders"] true;
                 Scripted.mkPage [Scripted.item "2" "60 orders"] true])).
Proof.
  split; [reflexivity |]. split; [cbn; lia |].
  apply (crawl_reads_first_pages (Scripted.options None 2)
           [Scripted.mkPage [Scripted.item "1" "10 orders"] true;
            Scripted.mkPage [Scripted.item "2" "60 orders"] true]);
    [reflexivity | cbn; lia].
Defined.

(** [newPage] throws; the file system keeps what is written. *)
Lemma run_initialize_failure_witness :
  fst (initialize (crawl_options (AliExpressScraper main_options))
         (session (@mkProcess Scripted.browser memory_fs
                     (Scripted.start Scripted.three_pages (Some 1%nat)) [] [])))
  = Throw "Navigation timeout"
  /\ fst (run (AliExpressScraper main_options)
            (@mkProcess Scripted.browser memory_fs
               (Scripted.start Scripted.three_pages (Some 1%nat)) [] []))
     = Throw "Navigation timeout".
Proof.
  split; [reflexivity |].
  apply (@run_initialize_failure Scripted.browser memory_fs
           (AliExpressScraper main_options)
           (@mkProcess Scripted.browser memory_fs
              (Scripted.start Scripted.three_pages (Some 1%nat)) [] [])
           "Navigation timeout").
  reflexivity.
Defined.

(** The click that leads to page 2 throws; the file system keeps what is
    written. *)
Lemma run_writes_what_was_crawled_witness :
  fst (initialize (crawl_options (AliExpressScraper main_options))
         (session (@mkProcess Scripted.browser memory_fs
                     (Scripted.start Scripted.three_pages (Some 9%nat)) [] [])))
  = Ok tt
  /\ exists tr report r d,
       log (session (snd (run (AliExpressScraper main_options)
                            (@mkProcess Scripted.browser memory_fs
                               (Scripted.start Scripted.three_pages (Some 9%nat))
                               [] []))))
       = (log (session (@mkProcess Scripted.browser memory_fs
                          (Scripted.start Scripted.three_pages (Some 9%nat))
                          [] []))
          ++ tr)%list
       /\ fst (run (AliExpressScraper main_options)
                 (@mkProcess Scripted.browser memory_fs
                    (Scripted.start Scripted.three_pages (Some 9%nat)) [] []))
          = Ok report
       /\ report_products report
          = harvest (crawl_options (AliExpressScraper main_options)) tr
       /\ total_products (metadata report)
          = Z.of_nat
              (length (harvest (crawl_options (AliExpressScraper main_options)) tr))
       /\ writeFile memory_fs (outputFile (AliExpressScraper main_options))
            report
            (files (@mkProcess Scripted.browser memory_fs
                      (Scripted.start Scripted.three_pages (Some 9%nat)) [] []))
          = (r, d)
       /\ files (snd (run (AliExpressScraper main_options)
                        (@mkProcess Scripted.browser memory_fs
                           (Scripted.start Scripted.three_pages (Some 9%nat))
                           [] [])))
          = d
       /\ output (snd (run (AliExpressScraper main_options)
                         (@mkProcess Scripted.browser memory_fs
                            (Scripted.start Scripted.three_pages (Some 9%nat))
                            [] [])))
          = (output (@mkProcess Scripted.browser memory_fs
                       (Scripted.start Scripted.three_pages (Some 9%nat)) [] [])
             ++ [OWriteFile (outputFile (AliExpressScraper main_options)) report r;
                 match r with
                 | Ok _ =>
                     OLog ("JSON Export completed: "
                           ++ outputFile (AliExpressScraper main_options))
                 | Throw e => OError "JSON export error:" e
                 end])%list.
Proof.
  split; [reflexivity |].
  apply (@run_writes_what_was_crawled Scripted.browser memory_fs
           (AliExpressScraper main_options)
           (@mkProcess Scripted.browser memory_fs
              (Scripted.start Scripted.three_pages (Some 9%nat)) [] [])).
  reflexivity.
Defined.

(** The crawl of [main] on the three-page site when the click that leads
    to page 2 throws and the write is refused: the report of page 1 is
    returned all the same. *)
Example run_after_two_failures :
  fst (run (AliExpressScraper main_options)
         (@mkProcess Scripted.browser readonly_fs
            (Scripted.start Scripted.three_pages (Some 9%nat)) tt []))
  = Ok (report_of (AliExpressScraper main_options)
          [product_of (fst (Scripted.item "2" "60 orders"))
             "2024-01-01T00:00:00.000Z"]
          "2024-01-01T00:00:00.000Z").
Proof. reflexivity. Qed.

(** The same crawl with a file system that keeps what is written: the
    report is in aliexpress_smartphones.json afterwards. *)
Example run_keeps_the_report :
  files (snd (run (AliExpressScraper main_options)
                (@mkProcess Scripted.browser memory_fs
                   (Scripted.start Scripted.three_pages (Some 9%nat)) [] [])))
  = [("aliexpress_smartphones.json",
      report_of (AliExpressScraper main_options)
        [product_of (fst (Scripted.item "2" "60 orders"))
           "2024-01-01T00:00:00.000Z"]
        "2024-01-01T00:00:00.000Z")].
Proof. reflexivity. Qed.

(** A POST without a body: the destructuring throws, nothing is launched
    and no answer is sent. *)
Example post_without_body :
  handler (mkRequest "POST" None) (Scripted.start Scripted.three_pages None)
  = (Throw destructure_error, Scripted.start Scripted.three_pages None).
Proof. reflexivity. Qed.

(** Past 2^53 the derived count is a rounded one, and a long enough run of
    digits gives [Infinity], which passes every threshold. *)
Example counts_past_2_53 :
  count_of_text "9007199254740993" = Num 9007199254740992
  /\ count_of_text "9007199254740995 orders" = Num 9007199254740996
  /\ passes (Scripted.options (Some 9007199254740996) 1)
       (product_of (fst (Scripted.item "1" "9007199254740995 orders")) "")
     = true
  /\ count_of_text (of_chars (repeat "9"%char 400)) = Inf false.
Proof. repeat split; vm_compute; reflexivity. Qed.

(** The string conversion of numbers: decimal up to 21 digits, exponent
    notation from 10^21 on. *)
Example number_toString_examples :
  number_toString 100 = "100"
  /\ number_toString (-5) = "-5"
  /\ number_toString (2 ^ 60) = "1152921504606847000"
  /\ number_toString (10 ^ 21) = "1e+21"
  /\ number_toString (15 * 10 ^ 20) = "1.5e+21".
Proof. repeat split; vm_compute; reflexivity. Qed.
